(** * BotLMKRD: the approval gate and the durable order queue of [main.py]

    A shallow embedding of the two mechanisms of [main.py] that carry the
    correctness requirements of the specification:

    - the approval requests table and the handlers around it
      ([create_approval_request], [update_approval_request_status],
      [get_approval_request_by_id], [delete_approval_request],
      [process_quantity_input], [handle_manager_approval],
      [handle_manager_reject_comment], [handle_continue_order]);
    - the order queue table and its worker ([add_order_to_queue],
      [get_pending_orders], [update_order_status], [process_order_queue],
      [final_confirmation]).

    Modelling conventions.
    - A SQLite table with a primary key is a [gmap] from the key to the row.
    - Python [int] is [Z], [None]-able values are [option]; a [str] is the
      [string] of the bytes of its UTF-8 encoding.
    - The Telegram calls a handler makes are recorded as a list of
      [effect]s; where what the handler does next depends on the outcome of
      a call (an exception of [bot.send_message], or of the [message.answer]
      of the gate), the outcome is an input.
    - The bot serves updates concurrently, and a handler gives way to the
      others at its awaits of Telegram.  The gate, [process_quantity_input],
      writes to the table of requests on both sides of such an await: it is
      modelled in two parts, [process_quantity_input_begin] up to the call
      of [bot.send_message] and [process_quantity_input_end] from its
      return, between which other handlers may run;
      [process_quantity_input] is the two in a row.  The other handlers
      read and write the tables without an await in between, and are one
      step each.  The transition system [step] serves every update to its
      end, the gate included.
    - The order [ORDER BY created_at] leaves open, between rows with the
      same [created_at], is an input of the query.
    - [CURRENT_TIMESTAMP] is an input [now] of the operation that uses it.
    - The store is taken to be reliable, except for the two writes whose
      failure the callers handle explicitly (the INSERT of
      [create_approval_request] and of [add_order_to_queue]). *)

From Stdlib Require Import ZArith String List Lia.
From stdpp Require Import base option list gmap fin_maps strings sorting pretty.

Set Warnings "-register-all".
Local Open Scope string_scope.
Local Open Scope Z_scope.
Local Open Scope list_scope.

(** ** Python values and JSON documents *)

(** Keys of a Python [dict].  [KOpaque] stands for any other hashable key
    (a tuple, a frozenset, ...), given by its [str]. *)
Inductive pykey :=
  | KStr (s : string)
  | KInt (z : Z)
  | KBool (b : bool)
  | KNone
  | KOpaque (repr : string).

(** The Python values that can sit in the FSM storage.  [PyObj] stands for
    any object that [json] does not know (a [datetime], a [set], ...), given
    by its [str].  Floating-point numbers are left out. *)
Inductive pyval :=
  | PyNone
  | PyBool (b : bool)
  | PyInt (z : Z)
  | PyStr (s : string)
  | PyList (items : list pyval)
  | PyTuple (items : list pyval)
  | PyDict (kvs : list (pykey * pyval))
  | PyObj (repr : string).

(** A [dict] is an insertion-ordered association list. *)
Abbreviation pydict := (list (pykey * pyval)).

Inductive json :=
  | JNull
  | JBool (b : bool)
  | JNum (z : Z)
  | JStr (s : string)
  | JArr (items : list json)
  | JObj (members : list (string * json)).

(** The content of a TEXT column that is read back with [json.loads]:
    either the text of a JSON document, identified with the document, or
    text on which [json.loads] raises [JSONDecodeError]. *)
Inductive text :=
  | Document (doc : json)
  | Malformed (raw : string).

Global Instance pykey_eq_dec : EqDecision pykey.
Proof. solve_decision. Defined.

Section dict.
Context {K V : Type} `{EqDecision K}.

(** [d[k] = v] *)
Fixpoint dict_set (k : K) (v : V) (d : list (K * V)) : list (K * V) :=
  match d with
  | [] => [(k, v)]
  | (k', v') :: d' =>
      if decide (k = k') then (k, v) :: d' else (k', v') :: dict_set k v d'
  end.

(** [d.get(k)] *)
Fixpoint dict_get (k : K) (d : list (K * V)) : option V :=
  match d with
  | [] => None
  | (k', v') :: d' => if decide (k = k') then Some v' else dict_get k d'
  end.

(** [dict(pairs)]: a later pair overrides an earlier one with the same key. *)
Definition dict_of_pairs (pairs : list (K * V)) : list (K * V) :=
  foldl (λ d kv, dict_set kv.1 kv.2 d) [] pairs.

(** [d.update(kwargs)] *)
Definition dict_update (d kwargs : list (K * V)) : list (K * V) :=
  foldl (λ d kv, dict_set kv.1 kv.2 d) d kwargs.

(** [k in d] *)
Definition dict_mem (k : K) (d : list (K * V)) : bool :=
  bool_decide (is_Some (dict_get k d)).
End dict.

(** The coercion of a [dict] key by [json.dumps]; any other key raises
    [TypeError] ([skipkeys] is not set). *)
Definition json_key (k : pykey) : option string :=
  match k with
  | KStr s => Some s
  | KInt z => Some (pretty z)
  | KBool true => Some "true"
  | KBool false => Some "false"
  | KNone => Some "null"
  | KOpaque _ => None
  end.

(** [json.dumps(v, ensure_ascii=False, default=str)] up to the document:
    a tuple is written as an array and an unknown object as the string
    [str(obj)]. *)
Fixpoint json_of_py (v : pyval) : option json :=
  match v with
  | PyNone => Some JNull
  | PyBool b => Some (JBool b)
  | PyInt z => Some (JNum z)
  | PyStr s => Some (JStr s)
  | PyList items =>
      JArr <$>
        (fix go (l : list pyval) : option (list json) :=
           match l with
           | [] => Some []
           | x :: l' =>
               match json_of_py x, go l' with
               | Some j, Some js => Some (j :: js)
               | _, _ => None
               end
           end) items
  | PyTuple items =>
      JArr <$>
        (fix go (l : list pyval) : option (list json) :=
           match l with
           | [] => Some []
           | x :: l' =>
               match json_of_py x, go l' with
               | Some j, Some js => Some (j :: js)
               | _, _ => None
               end
           end) items
  | PyDict kvs =>
      JObj <$>
        (fix go (l : pydict) : option (list (string * json)) :=
           match l with
           | [] => Some []
           | (k, x) :: l' =>
               match json_key k, json_of_py x, go l' with
               | Some s, Some j, Some js => Some ((s, j) :: js)
               | _, _, _ => None
               end
           end) kvs
  | PyObj repr => Some (JStr repr)
  end.

(** The value [json.loads] builds from a document. *)
Fixpoint py_of_json (j : json) : pyval :=
  match j with
  | JNull => PyNone
  | JBool b => PyBool b
  | JNum z => PyInt z
  | JStr s => PyStr s
  | JArr items => PyList (map py_of_json items)
  | JObj members =>
      PyDict (dict_of_pairs (map (λ m, (KStr m.1, py_of_json m.2)) members))
  end.

Definition json_dumps (v : pyval) : option text := Document <$> json_of_py v.

Definition json_loads (t : text) : option pyval :=
  match t with
  | Document doc => Some (py_of_json doc)
  | Malformed _ => None
  end.



(** [bool(v)] for the values above. *)
Definition py_truthy (v : pyval) : bool :=
  match v with
  | PyNone => false
  | PyBool b => b
  | PyInt z => negb (Z.eqb z 0)
  | PyStr s => negb (String.eqb s "")
  | PyList l | PyTuple l => negb (bool_decide (l = []))
  | PyDict kvs => negb (bool_decide (kvs = []))
  | PyObj _ => true
  end.

(** [v.get(key, default)]; [None] when [v] has no [get] (it is not a dict)
    and the call raises [AttributeError]. *)
Definition py_get (v : pyval) (key : string) (dflt : pyval) : option pyval :=
  match v with
  | PyDict kvs => Some (default dflt (dict_get (KStr key) kvs))
  | _ => None
  end.

(** ** The order queue: table [order_queue] *)

(** A row of [order_queue]; the [id] column is the key of the table. *)
Record QueueEntry := mkQueueEntry {
  q_user_id : Z;
  q_order_data : text;
  q_status : string;
  q_attempt_count : Z;
  q_last_attempt : option Z;
  q_error_message : option string;
  q_created_at : Z;
  q_processed_at : option Z
}.

(** The id an INSERT assigns ([INTEGER PRIMARY KEY AUTOINCREMENT]; no row
    of the queue is ever deleted). *)
Definition next_id (q : gmap Z QueueEntry) : Z :=
  1 + map_fold (λ k _ acc, Z.max k acc) 0 q.

(** [add_order_to_queue]: [db_ok = false] is an exception of the INSERT. *)
Definition add_order_to_queue (now : Z) (db_ok : bool)
    (user_id : Z) (order_data : pydict) (q : gmap Z QueueEntry)
    : gmap Z QueueEntry * bool :=
  match json_dumps (PyDict order_data) with
  | Some serialized_data =>
      if db_ok
      then (<[next_id q :=
                mkQueueEntry user_id serialized_data "pending" 0 None None now None]> q,
            true)
      else (q, false)
  | None => (q, false)
  end.

Definition MAX_ATTEMPTS : Z := 5.

(** The WHERE clause of [get_pending_orders]. *)
Definition eligible (e : QueueEntry) : bool :=
  String.eqb (q_status e) "pending"
  || (String.eqb (q_status e) "failed" && Z.ltb (q_attempt_count e) MAX_ATTEMPTS).

(** [ORDER BY created_at ASC].  SQL leaves the order of rows with the same
    [created_at] to the engine (SQLite gives them in the order in which its
    plan meets them, which depends on the index it scans).  [tie] is that
    order, an input of the query: of two rows with the same [created_at] the
    one with the lower rank [tie id] comes first; as [tie] is arbitrary,
    every order the engine may choose is covered.  (Two rows of the same
    rank come in the order of their ids, which makes the order total.) *)
Definition by_created_at (tie : Z → Z) (a b : Z * QueueEntry) : Prop :=
  q_created_at a.2 < q_created_at b.2
  ∨ (q_created_at a.2 = q_created_at b.2
     ∧ (tie a.1 < tie b.1 ∨ (tie a.1 = tie b.1 ∧ a.1 ≤ b.1))).

Global Instance by_created_at_dec tie a b : Decision (by_created_at tie a b).
Proof. unfold by_created_at. apply _. Defined.

(** [LIMIT ?]: a negative limit is no limit in SQLite. *)
Definition sql_limit {A} (limit : Z) (l : list A) : list A :=
  if Z.ltb limit 0 then l else take (Z.to_nat limit) l.

(** The rows the SELECT of [get_pending_orders] fetches. *)
Definition select_pending (tie : Z → Z) (q : gmap Z QueueEntry) (limit : Z)
    : list (Z * QueueEntry) :=
  sql_limit limit
    (merge_sort (by_created_at tie)
       (filter (λ r, eligible r.2 = true) (map_to_list q))).

(** An element of the list [get_pending_orders] returns. *)
Record Order := mkOrder {
  o_id : Z;
  o_user_id : Z;
  o_order_data : pyval;
  o_attempt_count : Z
}.

(** The body of the loop over the fetched rows: a row whose [order_data]
    does not parse is logged and left out. *)
Definition order_of_row (r : Z * QueueEntry) : option Order :=
  match json_loads (q_order_data r.2) with
  | Some order_data =>
      Some (mkOrder r.1 (q_user_id r.2) order_data (q_attempt_count r.2))
  | None => None
  end.

Definition get_pending_orders (tie : Z → Z) (q : gmap Z QueueEntry) (limit : Z)
    : list Order :=
  omap order_of_row (select_pending tie q limit).

(** The three UPDATE statements of [update_order_status], on the row. *)
Definition set_order_status (now : Z) (status : string)
    (error_message : option string) (e : QueueEntry) : QueueEntry :=
  if String.eqb status "completed" then
    mkQueueEntry (q_user_id e) (q_order_data e) status (q_attempt_count e)
      (Some now) (q_error_message e) (q_created_at e) (Some now)
  else if String.eqb status "failed" then
    mkQueueEntry (q_user_id e) (q_order_data e) status (q_attempt_count e + 1)
      (Some now) error_message (q_created_at e) (q_processed_at e)
  else
    mkQueueEntry (q_user_id e) (q_order_data e) status (q_attempt_count e)
      (Some now) (q_error_message e) (q_created_at e) (q_processed_at e).

(** [update_order_status]: the result tells whether a row was updated. *)
Definition update_order_status (now : Z) (order_id : Z) (status : string)
    (error_message : option string) (q : gmap Z QueueEntry)
    : gmap Z QueueEntry * bool :=
  (alter (set_order_status now status error_message) order_id q,
   bool_decide (is_Some (q !! order_id))).

Definition ADMINS : list Z := [122086799; 5183727015].

(** ** Effects: the calls a handler makes to Telegram, the log and the ledger *)

(** What [get_manager_id_by_department] returns. *)
Record manager_info := mkManager {
  m_id : Z;
  m_first_name : string;
  m_last_name : string;
  m_department : string
}.

(** What [get_product_info] returns, as far as the order flow reads it. *)
Record product_info := mkProduct {
  p_name : string;
  p_department : string;
  p_supplier : string;
  p_order_date : string;
  p_delivery_date : string;
  p_top : pyval
}.

(** The texts of [message.answer] and [callback.answer]. *)
Inductive reply :=
  | QuantityNotPositive
  | QuantityBadFormat
  | ProductInfoUnavailable
  | ManagerNotFound
  | CreateRequestError
  | ManagerSendFailed
  | OrderPaused (department : string) (manager : manager_info)
  | AskOrderReason
  | RequestNotFound
  | NotYourRequest
  | AlreadyDecided (status : string)
  | AlreadyHandled (approved : bool)
  | ApprovedUserNotified
  | ApprovedNotifyFailed
  | StatusUpdateError
  | EnterRejectReason
  | RejectPromptFailed
  | EmptyComment
  | StateError
  | RejectDone
  | RejectDoneNotifyFailed
  | RejectDbError
  | RequestNotFoundOrProcessed
  | ManagerRejected
  | NotYetApproved
  | DataRestored
  | ResumePrompt (article product_name department quantity : pyval)
  | RestoreError
  | MissingFields (fields : list string)
  | OrderSent.

(** The lines [callback.message.edit_text] appends to the manager's message. *)
Inductive edit_note :=
  | StatusAlreadyChanged (approved : bool)
  | NoteApproved
  | NoteEnterReason.

Inductive effect :=
  (** [message.answer] / [callback.answer] to the acting user *)
  | Answer (chat : Z) (r : reply)
  (** [callback.message.edit_text] *)
  | EditMessage (chat : Z) (n : edit_note)
  (** [callback.message.delete] *)
  | DeleteMessage (chat : Z)
  (** the request sent to the manager, with the buttons [approve:<id>] and
      [start_reject:<id>] *)
  | SendApprovalRequest (manager_id : Z) (request_id : string) (user_id : Z)
      (shop article : pyval) (product_name : string) (quantity : Z)
      (product_supplier department : string)
  (** the notification of the approval, with the button [continue_order:<id>] *)
  | SendApproved (user_id : Z) (request_id : string) (article : pyval)
      (product_name : string) (shop : pyval)
  (** the notification of the refusal, with the reason *)
  | SendRejected (user_id : Z) (manager : option manager_info)
      (department : string) (article shop : pyval) (product_name : string)
      (reject_comment : string)
  (** the alert to an admin that an order could not be put on the queue *)
  | SendEnqueueAlert (admin_id user_id : Z) (article shop : pyval)
  (** the alert to an admin that an order of the queue failed for good *)
  | SendQueueAlert (admin_id order_id user_id : Z) (article shop : pyval)
      (error : string)
  (** [logging.critical] of a lost order *)
  | LogCritical (user_id : Z)
  (** the write of an order to the Google sheet *)
  | LedgerWrite (order_id : Z)
  (** an exception that leaves the handler *)
  | Raised (exception : string).

(** ** The worker of the queue: [process_order_queue] *)

Definition max_retries : Z := 5.

(** The alerts of the block [if attempt_count + 1 >= max_retries]: one
    message per admin.  The message is built inside the [try] of the loop,
    so when [order_data] has no [get] nothing is sent. *)
Definition final_failure_alerts (order_item : Order) (error_msg : string)
    : list effect :=
  match py_get (o_order_data order_item) "article" (PyStr "N/A"),
        py_get (o_order_data order_item) "selected_shop" (PyStr "N/A") with
  | Some article, Some shop =>
      map (λ admin_id,
             SendQueueAlert admin_id (o_id order_item) (o_user_id order_item)
               article shop (substring 0 300 error_msg))
          ADMINS
  | _, _ => []
  end.

(** The body of [for order_item in pending_orders].  [ledger] is the write
    to the sheet: [None] when it succeeds, [Some error_msg] when it raises. *)
Definition process_order (now : Z) (ledger : Order → option string)
    (acc : gmap Z QueueEntry * list effect) (order_item : Order)
    : gmap Z QueueEntry * list effect :=
  let order_id := o_id order_item in
  let attempt_count := o_attempt_count order_item in
  let q1 := (update_order_status now order_id "processing" None acc.1).1 in
  match ledger order_item with
  | None =>
      ((update_order_status now order_id "completed" None q1).1,
       acc.2 ++ [LedgerWrite order_id])
  | Some error_msg =>
      ((update_order_status now order_id "failed" (Some error_msg) q1).1,
       acc.2 ++ LedgerWrite order_id ::
         (if Z.leb max_retries (attempt_count + 1)
          then final_failure_alerts order_item error_msg
          else []))
  end.

(** One iteration of [while worker_running]: an empty batch makes the
    worker sleep and changes nothing. *)
Definition process_order_queue_cycle (tie : Z → Z) (now : Z)
    (ledger : Order → option string) (q : gmap Z QueueEntry)
    : gmap Z QueueEntry * list effect :=
  let pending_orders := get_pending_orders tie q 5 in
  foldl (process_order now ledger) (q, []) pending_orders.

(** The worker over a number of iterations, each with the order in which
    the engine delivers ties, its time and the behaviour of the ledger
    during it. *)
Fixpoint process_order_queue
    (cycles : list ((Z → Z) * Z * (Order → option string)))
    (q : gmap Z QueueEntry) : gmap Z QueueEntry * list effect :=
  match cycles with
  | [] => (q, [])
  | (tie, now, ledger) :: cycles' =>
      let r := process_order_queue_cycle tie now ledger q in
      let r' := process_order_queue cycles' r.1 in
      (r'.1, r.2 ++ r'.2)
  end.

(** ** The approval requests: table [approval_requests] *)

(** A row of [approval_requests]; the [request_id] column is the key. *)
Record ApprovalRequest := mkRequest {
  r_user_id : Z;
  r_manager_id : Z;
  r_department : string;
  r_article : pyval;
  r_shop : pyval;
  r_product_name : string;
  r_product_supplier : string;
  r_status : string;
  r_user_data : text;
  r_manager_message_id : option Z;
  r_reject_comment : option string;
  r_created_at : Z;
  r_updated_at : Z
}.

(** [create_approval_request]: the INSERT fails on a [request_id] that is
    already there (PRIMARY KEY) and when [db_ok = false]. *)
Definition create_approval_request (now : Z) (db_ok : bool)
    (request_id : string) (user_id manager_id : Z) (department : string)
    (article shop : pyval) (product_name product_supplier : string)
    (user_data : pydict) (reqs : gmap string ApprovalRequest)
    : gmap string ApprovalRequest * bool :=
  match json_dumps (PyDict user_data) with
  | Some serialized_data =>
      if db_ok && bool_decide (reqs !! request_id = None)
      then (<[request_id :=
                mkRequest user_id manager_id department article shop
                  product_name product_supplier "pending" serialized_data
                  None None now now]> reqs,
            true)
      else (reqs, false)
  | None => (reqs, false)
  end.

(** The SET clause [update_approval_request_status] builds, on the row. *)
Definition set_request_status (now : Z) (status : string)
    (manager_message_id : option Z) (reject_comment : option string)
    (r : ApprovalRequest) : ApprovalRequest :=
  mkRequest (r_user_id r) (r_manager_id r) (r_department r) (r_article r)
    (r_shop r) (r_product_name r) (r_product_supplier r) status (r_user_data r)
    (match manager_message_id with
     | Some m => Some m
     | None => r_manager_message_id r
     end)
    (match reject_comment with
     | Some c => Some c
     | None => r_reject_comment r
     end)
    (r_created_at r) now.

Definition update_approval_request_status (now : Z) (request_id : string)
    (status : string) (manager_message_id : option Z)
    (reject_comment : option string) (reqs : gmap string ApprovalRequest)
    : gmap string ApprovalRequest * bool :=
  (alter (set_request_status now status manager_message_id reject_comment)
     request_id reqs,
   bool_decide (is_Some (reqs !! request_id))).

(** [get_approval_request_by_id]: the row and its [user_data] parsed; text
    that does not parse is replaced by the empty dict. *)
Definition get_approval_request_by_id (request_id : string)
    (reqs : gmap string ApprovalRequest) : option (ApprovalRequest * pyval) :=
  match reqs !! request_id with
  | Some row => Some (row, default (PyDict []) (json_loads (r_user_data row)))
  | None => None
  end.

Definition delete_approval_request (request_id : string)
    (reqs : gmap string ApprovalRequest) : gmap string ApprovalRequest * bool :=
  (delete request_id reqs, bool_decide (is_Some (reqs !! request_id))).

(** ** The FSM storage (the sessions) *)

(** The states of [OrderStates] and [ManagerApprovalStates] the handlers
    below are registered on or move to; any other state by its name. *)
Inductive fsm_state :=
  | quantity_input
  | order_reason_input
  | confirmation
  | awaiting_reject_comment
  | other_state (name : string).

Global Instance fsm_state_eq_dec : EqDecision fsm_state.
Proof. solve_decision. Defined.

(** The record the storage keeps for a user: the state and the data. *)
Record fsm_ctx := mkCtx {
  ctx_state : option fsm_state;
  ctx_data : pydict
}.

Definition empty_ctx : fsm_ctx := mkCtx None [].

Definition get_ctx (user : Z) (fsm : gmap Z fsm_ctx) : fsm_ctx :=
  default empty_ctx (fsm !! user).

(** [state.get_data()] *)
Definition state_get_data (user : Z) (fsm : gmap Z fsm_ctx) : pydict :=
  ctx_data (get_ctx user fsm).

(** [state.get_state()] *)
Definition state_get_state (user : Z) (fsm : gmap Z fsm_ctx) : option fsm_state :=
  ctx_state (get_ctx user fsm).

(** [state.set_data(data)] *)
Definition state_set_data (user : Z) (data : pydict) (fsm : gmap Z fsm_ctx)
    : gmap Z fsm_ctx :=
  <[user := mkCtx (ctx_state (get_ctx user fsm)) data]> fsm.

(** [state.update_data] with keyword arguments [kwargs] *)
Definition state_update_data (user : Z) (kwargs : pydict) (fsm : gmap Z fsm_ctx)
    : gmap Z fsm_ctx :=
  state_set_data user (dict_update (state_get_data user fsm) kwargs) fsm.

(** [state.set_state(s)] *)
Definition state_set_state (user : Z) (s : option fsm_state)
    (fsm : gmap Z fsm_ctx) : gmap Z fsm_ctx :=
  <[user := mkCtx s (ctx_data (get_ctx user fsm))]> fsm.

(** [state.clear()] *)
Definition state_clear (user : Z) (fsm : gmap Z fsm_ctx) : gmap Z fsm_ctx :=
  <[user := empty_ctx]> fsm.

(** ** The handlers *)

Record World := mkWorld {
  requests : gmap string ApprovalRequest;
  queue : gmap Z QueueEntry;
  fsm : gmap Z fsm_ctx
}.

Definition with_fsm (w : World) (f : gmap Z fsm_ctx) : World :=
  mkWorld (requests w) (queue w) f.

(** [product_info.get('Топ в магазине', '0') == '0'] *)
Definition is_top0 (v : pyval) : bool :=
  match v with
  | PyStr s => String.eqb s "0"
  | _ => false
  end.

(** What the gate holds across [await bot.send_message]: the local
    variables the rest of [process_quantity_input] reads. *)
Record gate_frame := mkFrame {
  g_from_id : Z;
  g_request_id : string;
  g_department : string;
  g_manager : manager_info
}.

(** [await message.answer(r)] followed by the rest of a branch, which
    turns [w] into [w'].  The call is recorded as [Answer]; when it raises,
    the message does not reach the user, the exception leaves the handler
    ([Raised]) and the rest does not run. *)
Definition answer_then (chat : Z) (r : reply) (answered : bool) (w w' : World)
    : World * list effect :=
  if answered then (w', [Answer chat r])
  else (w, [Answer chat r; Raised "TelegramAPIError"]).

(** [process_quantity_input], registered on [OrderStates.quantity_input],
    up to the call of [bot.send_message] for the manager, where the
    coroutine is suspended and other updates are served.
    - [message_int] is [int(message.text)], [None] for [ValueError];
    - [uuid4] is the fresh [str(uuid.uuid4())];
    - [answered] is the outcome of the one [message.answer] the handler
      makes to the requester: [false] when the call raises.
    The third component is [None] when the handler has finished, and the
    frame of the suspended coroutine when it has stored the request and
    calls [bot.send_message]. *)
Definition process_quantity_input_begin (now from_id : Z)
    (message_int : option Z)
    (get_product_info : pyval → pyval → option product_info)
    (get_manager_id_by_department : string → option manager_info)
    (uuid4 : string) (db_ok : bool) (answered : bool) (w : World)
    : World * list effect * option gate_frame :=
  match message_int with
  | None => (answer_then from_id QuantityBadFormat answered w w, None)
  | Some quantity =>
  if Z.leb quantity 0
  then (answer_then from_id QuantityNotPositive answered w w, None) else
  let fsm1 := state_update_data from_id [(KStr "quantity", PyInt quantity)] (fsm w) in
  let data := state_get_data from_id fsm1 in
  match dict_get (KStr "article") data, dict_get (KStr "selected_shop") data with
  | Some article, Some selected_shop =>
  match get_product_info article selected_shop with
  | None =>
      (answer_then from_id ProductInfoUnavailable answered (with_fsm w fsm1)
         (with_fsm w (state_clear from_id fsm1)),
       None)
  | Some product =>
  let fsm2 :=
    state_update_data from_id
      [(KStr "product_name", PyStr (p_name product));
       (KStr "department", PyStr (p_department product));
       (KStr "supplier_name", PyStr (p_supplier product));
       (KStr "order_date", PyStr (p_order_date product));
       (KStr "delivery_date", PyStr (p_delivery_date product));
       (KStr "top_in_shop", p_top product)] fsm1 in
  if is_top0 (p_top product) then
    let product_name := p_name product in
    let product_supplier := p_supplier product in
    let department := p_department product in
    match get_manager_id_by_department department with
    | None =>
        (answer_then from_id ManagerNotFound answered (with_fsm w fsm2)
           (with_fsm w (state_clear from_id fsm2)),
         None)
    | Some manager =>
    let manager_id := m_id manager in
    let request_id := uuid4 in
    let current_state_data := state_get_data from_id fsm2 in
    let created :=
      create_approval_request now db_ok request_id from_id manager_id
        department article selected_shop product_name product_supplier
        current_state_data (requests w) in
    if negb created.2 then
      (answer_then from_id CreateRequestError answered
         (mkWorld created.1 (queue w) fsm2)
         (mkWorld created.1 (queue w) (state_clear from_id fsm2)),
       None)
    else
      (mkWorld created.1 (queue w) fsm2,
       [SendApprovalRequest manager_id request_id from_id selected_shop article
          product_name quantity product_supplier department],
       Some (mkFrame from_id request_id department manager))
    end
  else
    (answer_then from_id AskOrderReason answered (with_fsm w fsm2)
       (with_fsm w (state_set_state from_id (Some order_reason_input) fsm2)),
     None)
  end
  | _, _ => (with_fsm w fsm1, [Raised "KeyError"], None)
  end
  end.

(** The rest of [process_quantity_input], from the return of
    [bot.send_message] on.  [sent] is the outcome of that call: the
    [message_id] of the message, or [None] when the call raised.
    - When the message was sent, the handler records its id with
      [update_approval_request_status(request_id, 'pending', message_id)],
      which writes the status whatever the row holds by then, tells the
      requester and clears the session.
    - When the call raised, the [except] block tells the requester, and
      then deletes the request and clears the session: when that
      [message.answer] raises too, the request stays. *)
Definition process_quantity_input_end (now : Z) (frame : gate_frame)
    (sent : option Z) (answered : bool) (w : World) : World * list effect :=
  let from_id := g_from_id frame in
  let request_id := g_request_id frame in
  match sent with
  | Some message_id =>
      let reqs2 :=
        (update_approval_request_status now request_id "pending"
           (Some message_id) None (requests w)).1 in
      answer_then from_id (OrderPaused (g_department frame) (g_manager frame))
        answered
        (mkWorld reqs2 (queue w) (fsm w))
        (mkWorld reqs2 (queue w) (state_clear from_id (fsm w)))
  | None =>
      let reqs2 := (delete_approval_request request_id (requests w)).1 in
      answer_then from_id ManagerSendFailed answered w
        (mkWorld reqs2 (queue w) (state_clear from_id (fsm w)))
  end.

(** [process_quantity_input] when no other update is served while it
    awaits [bot.send_message]. *)
Definition process_quantity_input (now from_id : Z) (message_int : option Z)
    (get_product_info : pyval → pyval → option product_info)
    (get_manager_id_by_department : string → option manager_info)
    (uuid4 : string) (db_ok : bool) (sent : option Z) (answered : bool)
    (w : World) : World * list effect :=
  let b :=
    process_quantity_input_begin now from_id message_int get_product_info
      get_manager_id_by_department uuid4 db_ok answered w in
  match b.2 with
  | None => b.1
  | Some frame =>
      let r := process_quantity_input_end now frame sent answered b.1.1 in
      (r.1, b.1.2 ++ r.2)
  end.

(** The two callbacks [handle_manager_approval] is registered on. *)
Inductive action := approve | start_reject.

(** [handle_manager_approval].  [sent_ok] is the outcome of the message to
    the requester and [edit_ok] that of the edit of the manager's message
    in the branch [start_reject] (the two calls whose exception changes the
    course of the handler). *)
Definition handle_manager_approval (now manager_id : Z) (act : action)
    (request_id : string) (sent_ok edit_ok : bool) (w : World)
    : World * list effect :=
  match get_approval_request_by_id request_id (requests w) with
  | None => (w, [Answer manager_id RequestNotFound])
  | Some (request_data, _) =>
  if negb (Z.eqb (r_manager_id request_data) manager_id) then
    (w, [Answer manager_id NotYourRequest])
  else if negb (String.eqb (r_status request_data) "pending") then
    (w, [Answer manager_id (AlreadyDecided (r_status request_data));
         EditMessage manager_id
           (StatusAlreadyChanged (String.eqb (r_status request_data) "approved"))])
  else
  let user_id := r_user_id request_data in
  let article := r_article request_data in
  let product_name := r_product_name request_data in
  let shop := r_shop request_data in
  match act with
  | approve =>
      let updated :=
        update_approval_request_status now request_id "approved" None None
          (requests w) in
      if updated.2 then
        (mkWorld updated.1 (queue w) (fsm w),
         SendApproved user_id request_id article product_name shop ::
           (if sent_ok
            then [Answer manager_id ApprovedUserNotified;
                  EditMessage manager_id NoteApproved]
            else [Answer manager_id ApprovedNotifyFailed]))
      else
        (mkWorld updated.1 (queue w) (fsm w), [Answer manager_id StatusUpdateError])
  | start_reject =>
      if edit_ok then
        (with_fsm w
           (state_update_data manager_id
              [(KStr "current_reject_request_id", PyStr request_id)]
              (state_set_state manager_id (Some awaiting_reject_comment) (fsm w))),
         [EditMessage manager_id NoteEnterReason;
          Answer manager_id EnterRejectReason;
          Answer manager_id StatusUpdateError])
      else
        (w, [EditMessage manager_id NoteEnterReason;
             Answer manager_id RejectPromptFailed])
  end
  end.

(** [str.strip()].  A text is held as the bytes of its UTF-8 encoding, so
    a character of white space ([str.isspace]) is one, two or three bytes:
    - one byte: U+0009 to U+000D, U+001C to U+001F and the space U+0020;
    - two bytes: U+0085 and U+00A0 ([C2 85], [C2 A0]);
    - three bytes: U+1680 ([E1 9A 80]), U+2000 to U+200A ([E2 80 80] to
      [E2 80 8A]), U+2028, U+2029, U+202F ([E2 80 A8], [E2 80 A9],
      [E2 80 AF]), U+205F ([E2 81 9F]) and U+3000 ([E3 80 80]). *)
Definition is_space (a : Ascii.ascii) : bool :=
  let n := Ascii.nat_of_ascii a in
  ((9 <=? n) && (n <=? 13) || (28 <=? n) && (n <=? 32))%nat.

Definition is_space2 (a b : Ascii.ascii) : bool :=
  let m := Ascii.nat_of_ascii a in
  let n := Ascii.nat_of_ascii b in
  ((m =? 194) && ((n =? 133) || (n =? 160)))%nat.

Definition is_space3 (a b c : Ascii.ascii) : bool :=
  let l := Ascii.nat_of_ascii a in
  let m := Ascii.nat_of_ascii b in
  let n := Ascii.nat_of_ascii c in
  ((l =? 225) && (m =? 154) && (n =? 128)
   || (l =? 226) && (m =? 128)
      && ((128 <=? n) && (n <=? 138) || (n =? 168) || (n =? 169) || (n =? 175))
   || (l =? 226) && (m =? 129) && (n =? 159)
   || (l =? 227) && (m =? 128) && (n =? 128))%nat.

Fixpoint lstrip (s : string) : string :=
  match s with
  | String a s1 =>
      if is_space a then lstrip s1 else
      match s1 with
      | String b s2 =>
          if is_space2 a b then lstrip s2 else
          match s2 with
          | String c s3 => if is_space3 a b c then lstrip s3 else s
          | EmptyString => s
          end
      | EmptyString => s
      end
  | EmptyString => EmptyString
  end.

(** The white space at the end of a text, taken off its reversal. *)
Fixpoint lstrip_reversed (s : string) : string :=
  match s with
  | String a s1 =>
      if is_space a then lstrip_reversed s1 else
      match s1 with
      | String b s2 =>
          if is_space2 b a then lstrip_reversed s2 else
          match s2 with
          | String c s3 => if is_space3 c b a then lstrip_reversed s3 else s
          | EmptyString => s
          end
      | EmptyString => s
      end
  | EmptyString => EmptyString
  end.

Definition rstrip (s : string) : string :=
  String.rev (lstrip_reversed (String.rev s)).

Definition strip (s : string) : string := rstrip (lstrip s).

(** The [request_id] a value is when bound to [WHERE request_id = ?]: a
    string is itself, an integer (or a boolean, which is bound as 0 or 1)
    is compared as its text, anything else cannot be bound. *)
Definition as_request_id (v : pyval) : option string :=
  match v with
  | PyStr s => Some s
  | PyInt z => Some (pretty z)
  | PyBool b => Some (if b then "1" else "0")
  | _ => None
  end.

(** [handle_manager_reject_comment], registered on
    [ManagerApprovalStates.awaiting_reject_comment].  [sent_ok] is the
    outcome of the message to the requester. *)
Definition handle_manager_reject_comment (now manager_id : Z) (text : string)
    (get_manager_id_by_department : string → option manager_info)
    (sent_ok : bool) (w : World) : World * list effect :=
  let reject_comment := strip text in
  if String.eqb reject_comment "" then (w, [Answer manager_id EmptyComment]) else
  let manager_state_data := state_get_data manager_id (fsm w) in
  let cleared := state_clear manager_id (fsm w) in
  match dict_get (KStr "current_reject_request_id") manager_state_data with
  | None => (with_fsm w cleared, [Answer manager_id StateError])
  | Some v =>
  if negb (py_truthy v) then (with_fsm w cleared, [Answer manager_id StateError]) else
  match as_request_id v with
  | None => (with_fsm w cleared, [Answer manager_id RequestNotFound])
  | Some request_id =>
  match get_approval_request_by_id request_id (requests w) with
  | None => (with_fsm w cleared, [Answer manager_id RequestNotFound])
  | Some (request_data, _) =>
  if negb (Z.eqb (r_manager_id request_data) manager_id) then
    (with_fsm w cleared, [Answer manager_id NotYourRequest])
  else if negb (String.eqb (r_status request_data) "pending") then
    (with_fsm w cleared,
     [Answer manager_id
        (AlreadyHandled (String.eqb (r_status request_data) "approved"))])
  else
  let updated :=
    update_approval_request_status now request_id "rejected" None
      (Some reject_comment) (requests w) in
  if updated.2 then
    let department_from_request := r_department request_data in
    (mkWorld updated.1 (queue w) cleared,
     [SendRejected (r_user_id request_data)
        (get_manager_id_by_department department_from_request)
        department_from_request (r_article request_data) (r_shop request_data)
        (r_product_name request_data) reject_comment;
      Answer manager_id (if sent_ok then RejectDone else RejectDoneNotifyFailed)])
  else
    (mkWorld updated.1 (queue w) cleared, [Answer manager_id RejectDbError])
  end
  end
  end.

(** [handle_continue_order].  A snapshot that is not a dict makes
    [state.set_data] raise, which the handler catches. *)
Definition handle_continue_order (user_id : Z) (request_id : string) (w : World)
    : World * list effect :=
  match get_approval_request_by_id request_id (requests w) with
  | None =>
      (w, [Answer user_id RequestNotFoundOrProcessed; DeleteMessage user_id])
  | Some (request_data, user_data_snapshot) =>
  if negb (Z.eqb (r_user_id request_data) user_id) then
    (w, [Answer user_id NotYourRequest])
  else if negb (String.eqb (r_status request_data) "approved") then
    (w, [Answer user_id
           (if String.eqb (r_status request_data) "rejected"
            then ManagerRejected else NotYetApproved)])
  else
  match user_data_snapshot with
  | PyDict snapshot =>
      let field k := default (PyStr "N/A") (dict_get (KStr k) snapshot) in
      (mkWorld (delete_approval_request request_id (requests w)).1 (queue w)
         (state_set_state user_id (Some order_reason_input)
            (state_set_data user_id snapshot (fsm w))),
       [Answer user_id DataRestored;
        DeleteMessage user_id;
        Answer user_id
          (ResumePrompt (field "article") (field "product_name")
             (field "department") (field "quantity"))])
  | _ =>
      (mkWorld (delete_approval_request request_id (requests w)).1 (queue w)
         (state_clear user_id (fsm w)),
       [Answer user_id RestoreError])
  end
  end.

Definition required_fields : list string :=
  ["selected_shop"; "article"; "order_reason"; "quantity"; "department";
   "user_name"; "user_position"].

(** [final_confirmation], registered on [OrderStates.confirmation].
    [now_iso] is [datetime.now().isoformat()]. *)
Definition final_confirmation (now : Z) (now_iso : string) (db_ok : bool)
    (user_id : Z) (w : World) : World * list effect :=
  let fsm1 :=
    state_update_data user_id [(KStr "last_activity", PyStr now_iso)] (fsm w) in
  let data := state_get_data user_id fsm1 in
  let missing_fields :=
    filter (λ field, dict_mem (KStr field) data = false) required_fields in
  match missing_fields with
  | _ :: _ =>
      (with_fsm w (state_clear user_id fsm1),
       [Answer user_id (MissingFields missing_fields)])
  | [] =>
  let data_copy := data in
  let enqueued := add_order_to_queue now db_ok user_id data_copy (queue w) in
  (mkWorld (requests w) enqueued.1 (state_clear user_id fsm1),
   Answer user_id OrderSent ::
     (if enqueued.2 then []
      else
        LogCritical user_id ::
        map (λ admin_id,
               SendEnqueueAlert admin_id user_id
                 (default (PyStr "N/A") (dict_get (KStr "article") data))
                 (default (PyStr "N/A") (dict_get (KStr "selected_shop") data)))
            ADMINS))
  end.

(** ** The bot as a transition system *)

(** An update with the inputs of the handler that serves it.  Any handler
    of the bot that is not modelled here, and the middleware
    [activity_tracker_middleware] that rewrites [last_activity] after a
    handler, only work on the FSM record of the user they serve
    ([OtherHandler]). *)
Inductive input :=
  | QuantityMessage (now from_id : Z) (message_int : option Z)
      (get_product_info : pyval → pyval → option product_info)
      (get_manager_id_by_department : string → option manager_info)
      (uuid4 : string) (db_ok : bool) (sent : option Z) (answered : bool)
  | ManagerCallback (now manager_id : Z) (act : action) (request_id : string)
      (sent_ok edit_ok : bool)
  | RejectComment (now manager_id : Z) (text : string)
      (get_manager_id_by_department : string → option manager_info)
      (sent_ok : bool)
  | ContinueOrder (user_id : Z) (request_id : string)
  | Confirmation (now : Z) (now_iso : string) (db_ok : bool) (user_id : Z)
  | WorkerCycle (tie : Z → Z) (now : Z) (ledger : Order → option string)
  | OtherHandler (user_id : Z) (ctx : fsm_ctx).

(** The dispatch: a message handler runs when the user is in the state the
    handler is registered on.  (Handlers that are registered earlier for a
    text, whatever the state, are not told apart: an update a handler of
    this kind takes is an [OtherHandler] here.)  Every handler is served to
    its end; for the gate served in two parts see
    [process_quantity_input_begin].  When a handler raises,
    [activity_tracker_middleware] calls it once more for the same update:
    in a run that is the same update a second time. *)
Definition step (i : input) (w : World) : World * list effect :=
  match i with
  | QuantityMessage now from_id message_int product manager uuid4 db_ok sent
      answered =>
      if decide (state_get_state from_id (fsm w) = Some quantity_input)
      then process_quantity_input now from_id message_int product manager
             uuid4 db_ok sent answered w
      else (w, [])
  | ManagerCallback now manager_id act request_id sent_ok edit_ok =>
      handle_manager_approval now manager_id act request_id sent_ok edit_ok w
  | RejectComment now manager_id text manager sent_ok =>
      if decide (state_get_state manager_id (fsm w) = Some awaiting_reject_comment)
      then handle_manager_reject_comment now manager_id text manager sent_ok w
      else (w, [])
  | ContinueOrder user_id request_id => handle_continue_order user_id request_id w
  | Confirmation now now_iso db_ok user_id =>
      if decide (state_get_state user_id (fsm w) = Some confirmation)
      then final_confirmation now now_iso db_ok user_id w
      else (w, [])
  | WorkerCycle tie now ledger =>
      let r := process_order_queue_cycle tie now ledger (queue w) in
      (mkWorld (requests w) r.1 (fsm w), r.2)
  | OtherHandler user_id ctx =>
      (with_fsm w (<[user_id := ctx]> (fsm w)), [])
  end.

(** A run of the bot over a sequence of updates. *)
Fixpoint run (inputs : list input) (w : World) : World * list effect :=
  match inputs with
  | [] => (w, [])
  | i :: inputs' =>
      let r := step i w in
      let r' := run inputs' r.1 in
      (r'.1, r.2 ++ r'.2)
  end.

(** Induction on Python values, through the lists and dicts. *)
Section pyval_induction.
Variable P : pyval → Prop.
Hypothesis HNone : P PyNone.
Hypothesis HBool : ∀ b, P (PyBool b).
Hypothesis HInt : ∀ z, P (PyInt z).
Hypothesis HStr : ∀ s, P (PyStr s).
Hypothesis HList : ∀ items, Forall P items → P (PyList items).
Hypothesis HTuple : ∀ items, Forall P items → P (PyTuple items).
Hypothesis HDict : ∀ kvs, Forall (λ kv, P kv.2) kvs → P (PyDict kvs).
Hypothesis HObj : ∀ repr, P (PyObj repr).

End pyval_induction.

(** ** Notions the properties are stated with *)

(** The order of the queue an effect of the worker is about. *)
Definition effect_order_id (ef : effect) : option Z :=
  match ef with
  | LedgerWrite order_id => Some order_id
  | SendQueueAlert _ order_id _ _ _ _ => Some order_id
  | _ => None
  end.

(** The effects of a run that are about the order [order_id]. *)
Definition effects_about (order_id : Z) (effs : list effect) : list effect :=
  filter (λ ef, effect_order_id ef = Some order_id) effs.

(** What the worker does for one order: the effects, and the row. *)
Definition order_effects (ledger : Order → option string) (o : Order)
    : list effect :=
  match ledger o with
  | None => [LedgerWrite (o_id o)]
  | Some error_msg =>
      LedgerWrite (o_id o) ::
        (if Z.leb max_retries (o_attempt_count o + 1)
         then final_failure_alerts o error_msg else [])
  end.

Definition order_row (now : Z) (ledger : Order → option string) (o : Order)
    (e : QueueEntry) : QueueEntry :=
  match ledger o with
  | None =>
      set_order_status now "completed" None
        (set_order_status now "processing" None e)
  | Some error_msg =>
      set_order_status now "failed" (Some error_msg)
        (set_order_status now "processing" None e)
  end.

(** The changes of status the specification allows: none, or from
    [pending] to one of the two final statuses. *)
Definition status_transition (s s' : string) : Prop :=
  s' = s ∨ (s = "pending" ∧ (s' = "approved" ∨ s' = "rejected")).

(** The worlds a run goes through, the first one included. *)
Fixpoint trace (inputs : list input) (w : World) : list World :=
  w :: match inputs with
       | [] => []
       | i :: inputs' => trace inputs' (step i w).1
       end.

(** The bot has called [bot.send_message] with the request [request_id]
    for the manager [manager_id]. *)
Definition notified (manager_id : Z) (request_id : string) (effs : list effect)
    : Prop :=
  ∃ user_id shop article product_name quantity product_supplier department,
    SendApprovalRequest manager_id request_id user_id shop article product_name
      quantity product_supplier department ∈ effs.

(** What one step of the bot can do to the table of requests, given the
    effects [effs] of the step. *)
Inductive requests_change (reqs reqs' : gmap string ApprovalRequest)
    (effs : list effect) : Prop :=
  | rc_same :
      reqs' = reqs → requests_change reqs reqs' effs
  | rc_created request_id row :
      reqs !! request_id = None →
      r_status row = "pending" →
      notified (r_manager_id row) request_id effs →
      is_Some (r_manager_message_id row) →
      reqs' = <[request_id := row]> reqs →
      requests_change reqs reqs' effs
  | rc_orphaned request_id row :
      reqs !! request_id = None →
      r_status row = "pending" →
      r_manager_message_id row = None →
      Raised "TelegramAPIError" ∈ effs →
      reqs' = <[request_id := row]> reqs →
      requests_change reqs reqs' effs
  | rc_decided request_id row now status reject_comment :
      reqs !! request_id = Some row →
      r_status row = "pending" →
      status = "approved" ∨ status = "rejected" →
      reqs' = alter (set_request_status now status None reject_comment)
                request_id reqs →
      requests_change reqs reqs' effs
  | rc_resumed request_id row :
      reqs !! request_id = Some row →
      r_status row = "approved" →
      reqs' = delete request_id reqs →
      requests_change reqs reqs' effs.

(** The three ways the guard of an approver's decision fails. *)
Inductive guard_failure :=
  | NotFound
  | NotAuthorized
  | NotPending (status : string).

(** The guard of a decision of [actor] on [request_id]: [None] when the
    request is there, assigned to [actor] and pending. *)
Definition decision_guard (reqs : gmap string ApprovalRequest)
    (request_id : string) (actor : Z) : option guard_failure :=
  match reqs !! request_id with
  | None => Some NotFound
  | Some row =>
      if negb (Z.eqb (r_manager_id row) actor) then Some NotAuthorized
      else if negb (String.eqb (r_status row) "pending")
           then Some (NotPending (r_status row))
           else None
  end.

(** What [handle_manager_approval] answers on a failure of the guard. *)
Definition callback_report (f : guard_failure) : reply :=
  match f with
  | NotFound => RequestNotFound
  | NotAuthorized => NotYourRequest
  | NotPending status => AlreadyDecided status
  end.

(** What [handle_manager_reject_comment] answers on a failure of the guard. *)
Definition comment_report (f : guard_failure) : reply :=
  match f with
  | NotFound => RequestNotFound
  | NotAuthorized => NotYourRequest
  | NotPending status => AlreadyHandled (String.eqb status "approved")
  end.

(** For every request of the table the bot has sent the request to its
    manager, and the id of the message that call returned is recorded on
    the row. *)
Definition all_notified (reqs : gmap string ApprovalRequest)
    (effs : list effect) : Prop :=
  ∀ request_id row,
    reqs !! request_id = Some row →
    notified (r_manager_id row) request_id effs
    ∧ is_Some (r_manager_message_id row).

(** ** Examples *)


Definition example_request (status : string) : ApprovalRequest :=
  mkRequest 7 5 "12" (PyStr "12345") (PyStr "7") "Drill" "ACME" status
    (Document
       (JObj [("selected_shop", JStr "7"); ("article", JStr "12345");
              ("quantity", JNum 3)]))
    (Some 900) None 10 20.

(** Manager 5 has pressed the button to refuse the request [r1]. *)
Definition example_world (status : string) : World :=
  mkWorld {[ "r1" := example_request status ]} ∅
    {[ 5 := mkCtx (Some awaiting_reject_comment)
              [(KStr "current_reject_request_id", PyStr "r1")] ]}.

(** A queue with a good order, an order whose payload does not parse, and
    an order that has failed for good. *)
Definition queue_example : gmap Z QueueEntry :=
  <[1 := mkQueueEntry 7
           (Document (JObj [("article", JStr "12345"); ("selected_shop", JStr "7")]))
           "pending" 0 None None 100 None]>
  (<[2 := mkQueueEntry 8 (Malformed "{oops") "pending" 0 None None 50 None]>
  (<[3 := mkQueueEntry 9 (Document (JObj [])) "failed" 5 None None 10 None]> ∅)).


(** An order that has failed four times, on the queue of a world. *)
Definition last_chance_entry : QueueEntry :=
  mkQueueEntry 7
    (Document (JObj [("article", JStr "12345"); ("selected_shop", JStr "7")]))
    "failed" 4 (Some 150) (Some "boom") 100 None.

Definition last_chance_world : World :=
  mkWorld ∅ {[ 1 := last_chance_entry ]} ∅.

(** Five orders whose payload does not parse, older than a good order. *)
Definition broken_entry (created_at : Z) : QueueEntry :=
  mkQueueEntry 8 (Malformed "{oops") "pending" 0 None None created_at None.

Definition starved_world : World :=
  mkWorld ∅
    (<[1 := broken_entry 1]> (<[2 := broken_entry 2]> (<[3 := broken_entry 3]>
    (<[4 := broken_entry 4]> (<[5 := broken_entry 5]>
    (<[6 := mkQueueEntry 7 (Document (JObj [("article", JStr "12345")]))
              "pending" 0 None None 6 None]> ∅))))))
    ∅.

(** User 7 is about to confirm an order. *)
Definition confirming_world : World :=
  mkWorld ∅ ∅
    {[ 7 := mkCtx (Some confirmation)
              [(KStr "selected_shop", PyStr "7"); (KStr "article", PyStr "12345");
               (KStr "order_reason", PyStr "client"); (KStr "quantity", PyInt 3);
               (KStr "department", PyStr "12"); (KStr "user_name", PyStr "Ann");
               (KStr "user_position", PyStr "seller")] ]}.

(** User 7 is about to give the quantity of an article of TOP 0. *)
Definition ordering_world : World :=
  mkWorld ∅ ∅
    {[ 7 := mkCtx (Some quantity_input)
              [(KStr "selected_shop", PyStr "7"); (KStr "article", PyStr "12345")] ]}.

Definition example_product (article shop : pyval) : option product_info :=
  Some (mkProduct "Drill" "12" "ACME" "01.01" "05.01" (PyStr "0")).

Definition example_directory (department : string) : option manager_info :=
  Some (mkManager 5 "Bob" "Stone" department).

(** * Properties *)

(** ** The model on small inputs *)

Example strip_example : strip "  out of budget  " = "out of budget".
Proof. reflexivity. Qed.

(** A no-break space (U+00A0, the bytes [C2 A0]) and an em space (U+2003,
    the bytes [E2 80 83]) are white space too. *)
Example strip_unicode_example :
  let nbsp := String (Ascii.ascii_of_nat 194) (String (Ascii.ascii_of_nat 160) "") in
  let emsp :=
    String (Ascii.ascii_of_nat 226)
      (String (Ascii.ascii_of_nat 128) (String (Ascii.ascii_of_nat 131) "")) in
  strip (nbsp +:+ " no stock" +:+ emsp +:+ nbsp) = "no stock"
  ∧ strip (nbsp +:+ emsp) = "".
Proof. by vm_compute. Qed.

Example json_dumps_default_str :
  json_dumps (PyDict [(KStr "when", PyObj "2024-01-01 10:00:00")])
  = Some (Document (JObj [("when", JStr "2024-01-01 10:00:00")])).
Proof. reflexivity. Qed.

Example get_pending_orders_example :
  o_id <$> get_pending_orders id queue_example 5 = [1].
Proof. by vm_compute. Qed.

Example negative_limit_is_no_limit :
  (select_pending id queue_example (-1)).*1 = [2; 1].
Proof. by vm_compute. Qed.

(** [update_approval_request_status] writes the status it is given, whatever
    the status of the row; which changes of status happen is decided by the
    handlers that call it. *)
Example update_approval_request_status_unguarded :
  r_status <$>
    (update_approval_request_status 50 "r1" "pending" (Some 901) None
       (requests (example_world "approved"))).1 !! "r1"
  = Some "pending".
Proof. by vm_compute. Qed.


(** ** The order queue *)

Global Instance by_created_at_total tie : Total (by_created_at tie).
Proof. intros a b. unfold by_created_at. lia. Qed.

Global Instance by_created_at_trans tie : Transitive (by_created_at tie).
Proof. intros a b c. unfold by_created_at. lia. Qed.




Lemma sql_limit_sublist {A} (limit : Z) (l : list A) :
  sql_limit limit l `sublist_of` l.
Proof. unfold sql_limit. case_match; [done|apply sublist_take]. Qed.


(** Every fetched row is a row of the table that passes the WHERE clause. *)
Lemma select_pending_elem tie q limit r :
  r ∈ select_pending tie q limit → q !! r.1 = Some r.2 ∧ eligible r.2 = true.
Proof.
  unfold select_pending. intros Hin.
  eapply elem_of_sublist in Hin; [|apply sql_limit_sublist].
  rewrite merge_sort_Permutation in Hin.
  apply list_elem_of_filter in Hin as [He Hin].
  by apply elem_of_map_to_list' in Hin.
Qed.


Lemma select_pending_NoDup tie q limit :
  NoDup (select_pending tie q limit).*1.
Proof.
  unfold select_pending.
  assert (Hsub : ∀ l1 l2 : list (Z * QueueEntry),
             l1 `sublist_of` l2 → NoDup l2.*1 → NoDup l1.*1).
  { intros l1 l2 Hsub Hnd. eapply sublist_NoDup; [exact Hnd|].
    by apply fmap_sublist. }
  eapply Hsub; [apply sql_limit_sublist|].
  rewrite merge_sort_Permutation.
  eapply Hsub; [apply sublist_filter|].
  apply NoDup_fst_map_to_list.
Qed.


Lemma omap_length_le {A B} (f : A → option B) (l : list A) :
  (length (omap f l) ≤ length l)%nat.
Proof.
  induction l as [|a l IH]; [done|]. cbn. destruct (f a); cbn; lia.
Qed.





(** C7 (update_status frame): [update_order_status] on an existing row
    touches no other row and leaves the user, the payload and [created_at]
    of the row as they were; it sets the status and the time of the last
    attempt.  On [completed] it sets [processed_at] and keeps
    [attempt_count] and [error_message]; on [failed] it adds exactly one to
    [attempt_count] and stores the error message; on any other status
    (processing, pending) it keeps [attempt_count], [error_message] and
    [processed_at].  Hence [attempt_count] never decreases and changes only
    on [failed]. *)
Theorem update_order_status_frame (now order_id : Z) (status : string)
    (error_message : option string) (q : gmap Z QueueEntry) (e : QueueEntry) :
  q !! order_id = Some e →
  let r := update_order_status now order_id status error_message q in
  r.2 = true
  ∧ (∀ j, j ≠ order_id → r.1 !! j = q !! j)
  ∧ ∃ e', r.1 !! order_id = Some e'
     ∧ q_status e' = status
     ∧ q_last_attempt e' = Some now
     ∧ q_user_id e' = q_user_id e
     ∧ q_order_data e' = q_order_data e
     ∧ q_created_at e' = q_created_at e
     ∧ (status = "completed" →
          q_processed_at e' = Some now
          ∧ q_attempt_count e' = q_attempt_count e
          ∧ q_error_message e' = q_error_message e)
     ∧ (status = "failed" →
          q_attempt_count e' = q_attempt_count e + 1
          ∧ q_error_message e' = error_message
          ∧ q_processed_at e' = q_processed_at e)
     ∧ (status ≠ "completed" → status ≠ "failed" →
          q_attempt_count e' = q_attempt_count e
          ∧ q_error_message e' = q_error_message e
          ∧ q_processed_at e' = q_processed_at e)
     ∧ q_attempt_count e ≤ q_attempt_count e'
     ∧ (q_attempt_count e' ≠ q_attempt_count e → status = "failed").
Proof.
  intros Hq. simpl. split; [|split].
  - rewrite Hq. by apply bool_decide_eq_true_2.
  - intros j Hj. by rewrite lookup_alter_ne.
  - exists (set_order_status now status error_message e).
    split; [by rewrite lookup_alter_eq, Hq|].
    unfold set_order_status.
    destruct (String.eqb_spec status "completed") as [->|Hc]; simpl.
    { repeat split; try done; try lia; intros; congruence. }
    destruct (String.eqb_spec status "failed") as [->|Hf]; simpl.
    { repeat split; try done; try lia; intros; congruence. }
    repeat split; try done; try lia; intros; congruence.
Qed.

Lemma next_id_fresh (q : gmap Z QueueEntry) : q !! next_id q = None.
Proof.
  assert (H : ∀ k, is_Some (q !! k) → k ≤ map_fold (λ k _ acc, Z.max k acc) 0 q).
  { apply (map_fold_weak_ind
             (λ r (m : gmap Z QueueEntry), ∀ k, is_Some (m !! k) → k ≤ r)).
    - intros k [x Hx]. by rewrite lookup_empty in Hx.
    - intros i x m r Hi IH k Hk.
      destruct (decide (k = i)) as [->|Hne]; [lia|].
      rewrite lookup_insert_ne in Hk by done. specialize (IH k Hk). lia. }
  destruct (q !! next_id q) eqn:E; [|done].
  specialize (H (next_id q) (mk_is_Some _ _ E)). unfold next_id in H. lia.
Qed.

Lemma order_of_row_Some r o :
  order_of_row r = Some o →
  o_id o = r.1 ∧ o_user_id o = q_user_id r.2
  ∧ json_loads (q_order_data r.2) = Some (o_order_data o)
  ∧ o_attempt_count o = q_attempt_count r.2.
Proof.
  unfold order_of_row. destruct (json_loads _); [|done].
  intros [= <-]. done.
Qed.

(** The orders of a batch are rows of the table, each at most once. *)
Lemma get_pending_orders_elem tie q limit o :
  o ∈ get_pending_orders tie q limit →
  ∃ e, q !! o_id o = Some e ∧ eligible e = true
       ∧ order_of_row (o_id o, e) = Some o.
Proof.
  unfold get_pending_orders. intros Hin.
  apply list_elem_of_omap in Hin as (r & Hr & Ho).
  pose proof (order_of_row_Some _ _ Ho) as (Hid & _).
  apply select_pending_elem in Hr as [Hq He].
  exists r.2. rewrite Hid. split; [done|]. split; [done|].
  by destruct r.
Qed.

Lemma omap_ids_sublist (l : list (Z * QueueEntry)) :
  (o_id <$> omap order_of_row l) `sublist_of` l.*1.
Proof.
  induction l as [|r l IH]; [done|]. cbn.
  destruct (order_of_row r) as [o|] eqn:E; cbn.
  - apply order_of_row_Some in E as [-> _]. by apply sublist_skip.
  - by apply sublist_cons.
Qed.

Lemma get_pending_orders_NoDup tie q limit :
  NoDup (o_id <$> get_pending_orders tie q limit).
Proof.
  eapply sublist_NoDup; [apply (select_pending_NoDup tie q limit)|].
  apply omap_ids_sublist.
Qed.

Lemma process_order_effects now ledger acc o :
  (process_order now ledger acc o).2 = acc.2 ++ order_effects ledger o.
Proof. unfold process_order, order_effects. by destruct (ledger o). Qed.

Lemma process_order_lookup_ne now ledger acc o j :
  j ≠ o_id o → (process_order now ledger acc o).1 !! j = acc.1 !! j.
Proof.
  intros Hj. unfold process_order, update_order_status.
  destruct (ledger o); simpl; by rewrite !lookup_alter_ne.
Qed.

Lemma process_order_lookup_eq now ledger acc o :
  (process_order now ledger acc o).1 !! o_id o
  = order_row now ledger o <$> acc.1 !! o_id o.
Proof.
  unfold process_order, update_order_status, order_row.
  destruct (ledger o); simpl; rewrite !lookup_alter_eq;
    by destruct (acc.1 !! o_id o).
Qed.

Lemma order_effects_about ledger o :
  Forall (λ ef, effect_order_id ef = Some (o_id o)) (order_effects ledger o).
Proof.
  unfold order_effects, final_failure_alerts.
  destruct (ledger o); repeat constructor.
  destruct (Z.leb _ _); [|constructor].
  destruct (py_get _ _ _); [|constructor].
  destruct (py_get _ _ _); [|constructor].
  apply Forall_fmap, Forall_forall. done.
Qed.

Lemma effects_about_app i l1 l2 :
  effects_about i (l1 ++ l2) = effects_about i l1 ++ effects_about i l2.
Proof. apply filter_app. Qed.

Lemma effects_about_order_eq ledger o :
  effects_about (o_id o) (order_effects ledger o) = order_effects ledger o.
Proof.
  unfold effects_about. pose proof (order_effects_about ledger o) as H.
  induction H as [|ef l Hef Hl IH]; [done|].
  rewrite filter_cons, decide_True by done. by rewrite IH.
Qed.

Lemma effects_about_order_ne ledger o i :
  o_id o ≠ i → effects_about i (order_effects ledger o) = [].
Proof.
  intros Hne. unfold effects_about.
  pose proof (order_effects_about ledger o) as H.
  induction H as [|ef l Hef Hl IH]; [done|].
  rewrite filter_cons, decide_False; [done|]. congruence.
Qed.

(** A batch leaves alone the rows it does not contain. *)
Lemma process_batch_other now ledger batch acc i :
  i ∉ o_id <$> batch →
  (foldl (process_order now ledger) acc batch).1 !! i = acc.1 !! i
  ∧ effects_about i (foldl (process_order now ledger) acc batch).2
    = effects_about i acc.2.
Proof.
  revert acc. induction batch as [|o batch IH]; intros acc Hi; [done|].
  cbn in Hi. apply not_elem_of_cons in Hi as [Hne Hi].
  simpl. destruct (IH (process_order now ledger acc o) Hi) as [-> ->].
  rewrite process_order_lookup_ne by done.
  rewrite process_order_effects, effects_about_app.
  rewrite effects_about_order_ne by done. by rewrite app_nil_r.
Qed.

(** A batch handles the order it contains once. *)
Lemma process_batch_elem now ledger batch acc o :
  NoDup (o_id <$> batch) → o ∈ batch →
  (foldl (process_order now ledger) acc batch).1 !! o_id o
  = order_row now ledger o <$> acc.1 !! o_id o
  ∧ effects_about (o_id o) (foldl (process_order now ledger) acc batch).2
    = effects_about (o_id o) acc.2 ++ order_effects ledger o.
Proof.
  intros Hnd Hin. apply list_elem_of_split in Hin as (l1 & l2 & ->).
  rewrite fmap_app, fmap_cons in Hnd.
  apply NoDup_app in Hnd as (_ & Hl1 & Hnd).
  apply NoDup_cons in Hnd as [Hl2 _].
  assert (Hn1 : o_id o ∉ o_id <$> l1).
  { intros H. apply (Hl1 _ H). by left. }
  rewrite foldl_app. simpl.
  destruct (process_batch_other now ledger l2
              (process_order now ledger (foldl (process_order now ledger) acc l1) o)
              (o_id o) Hl2) as [-> ->].
  rewrite process_order_lookup_eq, process_order_effects, effects_about_app.
  destruct (process_batch_other now ledger l1 acc (o_id o) Hn1) as [-> ->].
  by rewrite effects_about_order_eq.
Qed.

(** A row the worker cannot claim: it fails the WHERE clause, or its
    [order_data] does not parse. *)
Lemma unclaimed_not_in_batch tie q limit i e :
  q !! i = Some e →
  eligible e = false ∨ json_loads (q_order_data e) = None →
  i ∉ o_id <$> get_pending_orders tie q limit.
Proof.
  intros Hq Hun Hin. apply list_elem_of_fmap in Hin as (o & -> & Hin).
  apply get_pending_orders_elem in Hin as (e' & Hq' & He' & Ho).
  rewrite Hq in Hq'. injection Hq' as <-.
  destruct Hun as [Hun|Hun]; [congruence|].
  apply order_of_row_Some in Ho as (_ & _ & Hl & _). simpl in Hl. congruence.
Qed.

Lemma cycle_keeps_row tie now ledger q i e :
  q !! i = Some e →
  eligible e = false ∨ json_loads (q_order_data e) = None →
  (process_order_queue_cycle tie now ledger q).1 !! i = Some e
  ∧ effects_about i (process_order_queue_cycle tie now ledger q).2 = [].
Proof.
  intros Hq Hun. unfold process_order_queue_cycle.
  destruct (process_batch_other now ledger (get_pending_orders tie q 5) (q, []) i)
    as [-> ->]; [by eapply unclaimed_not_in_batch|done].
Qed.

Lemma add_order_to_queue_keeps now db_ok user_id order_data q i e :
  q !! i = Some e →
  (add_order_to_queue now db_ok user_id order_data q).1 !! i = Some e.
Proof.
  intros Hq. unfold add_order_to_queue.
  destruct (json_dumps _); [|done]. destruct db_ok; [|done]. simpl.
  rewrite lookup_insert_ne; [done|].
  intros Heq. pose proof (next_id_fresh q) as Hf. congruence.
Qed.

Ltac handler_cases :=
  repeat (simpl; case_match); simpl; try done.

(** The handlers of the approval flow do not touch the queue and say
    nothing about its orders. *)
Lemma process_quantity_input_queue now from_id mi gp gm uuid4 db_ok sent
    answered w i :
  let r :=
    process_quantity_input now from_id mi gp gm uuid4 db_ok sent answered w in
  queue r.1 = queue w ∧ effects_about i r.2 = [].
Proof.
  unfold process_quantity_input, process_quantity_input_begin,
    process_quantity_input_end, answer_then.
  handler_cases.
Qed.

Lemma handle_manager_approval_queue now m act rid sent_ok edit_ok w i :
  let r := handle_manager_approval now m act rid sent_ok edit_ok w in
  queue r.1 = queue w ∧ effects_about i r.2 = [].
Proof. unfold handle_manager_approval. handler_cases. Qed.

Lemma handle_manager_reject_comment_queue now m text gm sent_ok w i :
  let r := handle_manager_reject_comment now m text gm sent_ok w in
  queue r.1 = queue w ∧ effects_about i r.2 = [].
Proof. unfold handle_manager_reject_comment. handler_cases. Qed.

Lemma handle_continue_order_queue u rid w i :
  let r := handle_continue_order u rid w in
  queue r.1 = queue w ∧ effects_about i r.2 = [].
Proof. unfold handle_continue_order. handler_cases. Qed.

Lemma final_confirmation_effects now now_iso db_ok u w i :
  effects_about i (final_confirmation now now_iso db_ok u w).2 = [].
Proof. unfold final_confirmation. handler_cases. Qed.

Lemma final_confirmation_keeps now now_iso db_ok u w i e :
  queue w !! i = Some e →
  queue (final_confirmation now now_iso db_ok u w).1 !! i = Some e.
Proof.
  intros Hq. unfold final_confirmation. case_match; simpl; [|done].
  by apply add_order_to_queue_keeps.
Qed.

(** No step of the bot touches a row the worker cannot claim. *)
Lemma step_keeps_row inp w i e :
  queue w !! i = Some e →
  eligible e = false ∨ json_loads (q_order_data e) = None →
  queue (step inp w).1 !! i = Some e ∧ effects_about i (step inp w).2 = [].
Proof.
  intros Hq Hun.
  destruct inp as [now from_id mi gp gm uuid4 db_ok sent answered
                  |now m act rid sent_ok edit_ok
                  |now m txt gm sent_ok
                  |u rid
                  |now now_iso db_ok u
                  |tie now ledger
                  |u ctx]; simpl.
  - case_decide; [|done].
    destruct (process_quantity_input_queue now from_id mi gp gm uuid4 db_ok
                sent answered w i) as [-> ->]; done.
  - destruct (handle_manager_approval_queue now m act rid sent_ok edit_ok w i)
      as [-> ->]; done.
  - case_decide; [|done].
    destruct (handle_manager_reject_comment_queue now m txt gm sent_ok w i)
      as [-> ->]; done.
  - destruct (handle_continue_order_queue u rid w i) as [-> ->]; done.
  - case_decide; [|done]. split.
    + by apply final_confirmation_keeps.
    + apply final_confirmation_effects.
  - by apply cycle_keeps_row.
  - done.
Qed.

Lemma run_keeps_row inputs w i e :
  queue w !! i = Some e →
  eligible e = false ∨ json_loads (q_order_data e) = None →
  queue (run inputs w).1 !! i = Some e ∧ effects_about i (run inputs w).2 = [].
Proof.
  revert w. induction inputs as [|inp inputs IH]; intros w Hq Hun; [done|].
  simpl. destruct (step_keeps_row inp w i e Hq Hun) as [Hq' Heff].
  destruct (IH _ Hq' Hun) as [Hq'' Heff'].
  split; [done|]. by rewrite effects_about_app, Heff, Heff'.
Qed.

Lemma omap_length_lt {A B} (f : A → option B) (l : list A) x :
  x ∈ l → f x = None → (length (omap f l) < length l)%nat.
Proof.
  intros Hin Hx. induction l as [|y l IH]; [by apply elem_of_nil in Hin|].
  apply elem_of_cons in Hin as [->|Hin]; cbn.
  - rewrite Hx. pose proof (omap_length_le f l). lia.
  - specialize (IH Hin). destruct (f y); cbn; lia.
Qed.

Lemma omap_all_None {A B} (f : A → option B) (l : list A) :
  Forall (λ x, f x = None) l → omap f l = [].
Proof. induction 1 as [|x l Hx Hl IH]; [done|]. cbn. by rewrite Hx. Qed.

Lemma select_pending_covers tie q limit r :
  q !! r.1 = Some r.2 → eligible r.2 = true →
  Z.of_nat (size q) ≤ limit → r ∈ select_pending tie q limit.
Proof.
  intros Hq He Hlimit. unfold select_pending, sql_limit.
  set (l := merge_sort (by_created_at tie) _).
  assert (Hin : r ∈ l).
  { unfold l. rewrite merge_sort_Permutation. apply list_elem_of_filter.
    split; [done|]. by apply elem_of_map_to_list'. }
  destruct (Z.ltb_spec limit 0); [done|].
  rewrite take_ge; [done|].
  unfold l. rewrite merge_sort_Permutation.
  etrans; [apply length_filter|]. rewrite length_map_to_list. lia.
Qed.

(** C5 (retry exhaustion): when the worker claims an entry that has failed
    [MAX_ATTEMPTS - 1] times and the write to the ledger fails once more,
    the cycle leaves the entry failed with [attempt_count = MAX_ATTEMPTS],
    which the WHERE clause excludes; what the cycle does about the entry is
    one write attempt followed by the escalation, one alert to each admin of
    [ADMINS] carrying the entry id, the user id and the article and shop of
    the payload; and whatever the bot does afterwards, the row stays as it
    is, no write is attempted for it and no alert is sent about it again. *)
Theorem retry_exhaustion (tie : Z → Z) (now : Z)
    (ledger : Order → option string) (w : World)
    (i : Z) (e : QueueEntry) (d : pydict) (err : string) :
  (i, e) ∈ select_pending tie (queue w) 5 →
  q_attempt_count e = MAX_ATTEMPTS - 1 →
  json_loads (q_order_data e) = Some (PyDict d) →
  ledger (mkOrder i (q_user_id e) (PyDict d) (q_attempt_count e)) = Some err →
  let r := step (WorkerCycle tie now ledger) w in
  (∃ e', queue r.1 !! i = Some e' ∧ q_status e' = "failed"
         ∧ q_attempt_count e' = MAX_ATTEMPTS ∧ eligible e' = false)
  ∧ effects_about i r.2
    = LedgerWrite i ::
      map (λ admin_id,
             SendQueueAlert admin_id i (q_user_id e)
               (default (PyStr "N/A") (dict_get (KStr "article") d))
               (default (PyStr "N/A") (dict_get (KStr "selected_shop") d))
               (substring 0 300 err))
          ADMINS
  ∧ ∀ inputs,
      let r' := run inputs r.1 in
      queue r'.1 !! i = queue r.1 !! i ∧ effects_about i r'.2 = [].
Proof.
  intros Hsel Hcount Hload Hledger. simpl.
  pose proof (select_pending_elem _ _ _ _ Hsel) as [Hq He]. simpl in Hq, He.
  set (o := mkOrder i (q_user_id e) (PyDict d) (q_attempt_count e)) in *.
  assert (Ho : o ∈ get_pending_orders tie (queue w) 5).
  { unfold get_pending_orders. apply list_elem_of_omap.
    exists (i, e). split; [done|]. unfold order_of_row. simpl. by rewrite Hload. }
  destruct (process_batch_elem now ledger (get_pending_orders tie (queue w) 5)
              (queue w, []) o (get_pending_orders_NoDup _ _ _) Ho) as [Hrow Heff].
  simpl in Hrow, Heff.
  fold (process_order_queue_cycle tie now ledger (queue w)) in *.
  rewrite Hq in Hrow. unfold order_row in Hrow. rewrite Hledger in Hrow.
  simpl in Hrow.
  set (e' := set_order_status now "failed" (Some err)
               (set_order_status now "processing" None e)) in *.
  assert (He' : eligible e' = false).
  { unfold eligible, e'. simpl. rewrite Hcount. done. }
  split; [|split].
  - exists e'. split; [done|]. split; [done|]. split; [|done].
    unfold e'. simpl. rewrite Hcount. done.
  - rewrite Heff. unfold order_effects. rewrite Hledger.
    unfold o at 2. simpl. rewrite Hcount. simpl. done.
  - intros inputs. simpl. rewrite Hrow.
    by apply (run_keeps_row inputs _ i e'); [|left].
Qed.

(** C10 (malformed payload): a row of the queue whose payload does not
    parse is in no batch [get_pending_orders] returns; when the SELECT
    fetches it, the batch is shorter than the rows fetched, so the row takes
    a place of the limit; an eligible such row is fetched whenever the limit
    covers the table; whatever the bot does, the row stays exactly as it is
    (status and attempt count included), no write is attempted for it and
    no alert is sent about it; and when the rows a cycle fetches are all of
    this kind, the worker does nothing at all, cycle after cycle. *)
Theorem malformed_payload_starved (w : World) (i : Z) (e : QueueEntry) :
  queue w !! i = Some e →
  json_loads (q_order_data e) = None →
  (∀ tie limit, i ∉ o_id <$> get_pending_orders tie (queue w) limit)
  ∧ (∀ tie limit, (i, e) ∈ select_pending tie (queue w) limit →
       (length (get_pending_orders tie (queue w) limit)
        < length (select_pending tie (queue w) limit))%nat)
  ∧ (eligible e = true → ∀ tie limit, Z.of_nat (size (queue w)) ≤ limit →
       (i, e) ∈ select_pending tie (queue w) limit)
  ∧ (∀ inputs,
       let r := run inputs w in
       queue r.1 !! i = Some e ∧ effects_about i r.2 = [])
  ∧ (∀ cycles,
       Forall (λ c, Forall (λ r, json_loads (q_order_data r.2) = None)
                      (select_pending c.1.1 (queue w) 5)) cycles →
       process_order_queue cycles (queue w) = (queue w, [])).
Proof.
  intros Hq Hbad. split; [|split; [|split; [|split]]].
  - intros tie limit. by eapply unclaimed_not_in_batch; [|right].
  - intros tie limit Hsel. unfold get_pending_orders.
    eapply omap_length_lt; [done|]. unfold order_of_row. simpl. by rewrite Hbad.
  - intros He tie limit Hlimit. by apply select_pending_covers.
  - intros inputs. by apply run_keeps_row; [|right].
  - intros cycles Hall.
    assert (Hcycle : ∀ tie now ledger,
               Forall (λ r, json_loads (q_order_data r.2) = None)
                 (select_pending tie (queue w) 5) →
               process_order_queue_cycle tie now ledger (queue w) = (queue w, [])).
    { intros tie now ledger Hbatch.
      unfold process_order_queue_cycle, get_pending_orders.
      rewrite omap_all_None; [done|].
      eapply Forall_impl; [done|]. intros r Hr. unfold order_of_row.
      by rewrite Hr. }
    induction Hall as [|[[tie now] ledger] cycles Hc Hall IH]; [done|].
    simpl. rewrite Hcycle by done. simpl. by rewrite IH.
Qed.

(** ** Putting an order on the queue *)

Lemma filter_none {A} (P : A → Prop) `{∀ x, Decision (P x)} (l : list A) :
  Forall (λ x, ¬ P x) l → filter P l = [].
Proof.
  induction 1 as [|x l Hx Hl IH]; [done|].
  by rewrite filter_cons, decide_False.
Qed.

(** C9 (enqueue never drops silently): for a confirmed order with all the
    required fields, [add_order_to_queue] either appends a new row with
    status [pending] under an id no row had, keeps every other row and
    returns [True], or changes nothing and returns [False];
    [final_confirmation] leaves the queue as [add_order_to_queue] made it,
    and when the result is [False] it logs the loss at level critical with
    the user id and sends every admin of [ADMINS] an alert with the user id,
    the article and the shop of the order. *)
Theorem enqueue_never_silently_drops (now : Z) (now_iso : string)
    (db_ok : bool) (user_id : Z) (w : World) :
  let data :=
    state_get_data user_id
      (state_update_data user_id [(KStr "last_activity", PyStr now_iso)] (fsm w)) in
  Forall (λ field, dict_mem (KStr field) data = true) required_fields →
  let enqueued := add_order_to_queue now db_ok user_id data (queue w) in
  let r := final_confirmation now now_iso db_ok user_id w in
  queue r.1 = enqueued.1
  ∧ ((enqueued.2 = true
      ∧ queue w !! next_id (queue w) = None
      ∧ (∃ serialized_data,
           json_dumps (PyDict data) = Some serialized_data
           ∧ enqueued.1
             = <[next_id (queue w) :=
                   mkQueueEntry user_id serialized_data "pending" 0 None None
                     now None]> (queue w))
      ∧ r.2 = [Answer user_id OrderSent])
     ∨ (enqueued.2 = false
        ∧ enqueued.1 = queue w
        ∧ r.2 = Answer user_id OrderSent ::
                LogCritical user_id ::
                map (λ admin_id,
                       SendEnqueueAlert admin_id user_id
                         (default (PyStr "N/A") (dict_get (KStr "article") data))
                         (default (PyStr "N/A")
                            (dict_get (KStr "selected_shop") data)))
                    ADMINS)).
Proof.
  intros data Hreq enqueued r.
  assert (Hmissing :
            filter (λ field, dict_mem (KStr field) data = false) required_fields = []).
  { apply filter_none. eapply Forall_impl; [exact Hreq|].
    simpl. intros field ->. done. }
  assert (Hr : r = (mkWorld (requests w) enqueued.1
                      (state_clear user_id
                         (state_update_data user_id
                            [(KStr "last_activity", PyStr now_iso)] (fsm w))),
                    Answer user_id OrderSent ::
                      (if enqueued.2 then []
                       else
                         LogCritical user_id ::
                         map (λ admin_id,
                                SendEnqueueAlert admin_id user_id
                                  (default (PyStr "N/A")
                                     (dict_get (KStr "article") data))
                                  (default (PyStr "N/A")
                                     (dict_get (KStr "selected_shop") data)))
                             ADMINS))).
  { unfold r, final_confirmation. fold data. by rewrite Hmissing. }
  rewrite Hr. simpl. split; [done|].
  unfold enqueued, add_order_to_queue.
  destruct (json_dumps (PyDict data)) as [serialized_data|] eqn:Hdumps.
  - destruct db_ok; simpl.
    + left. split; [done|]. split; [apply next_id_fresh|].
      split; [by exists serialized_data|done].
    + right. done.
  - right. done.
Qed.

(** ** The snapshot of the session *)






(** ** The approval requests *)

Lemma create_approval_request_spec now db_ok rid u m dep art shop pn ps S reqs :
  let c := create_approval_request now db_ok rid u m dep art shop pn ps S reqs in
  (c.2 = false ∧ c.1 = reqs)
  ∨ (c.2 = true ∧ reqs !! rid = None
     ∧ ∃ ser, json_dumps (PyDict S) = Some ser
        ∧ c.1 = <[rid := mkRequest u m dep art shop pn ps "pending" ser
                           None None now now]> reqs).
Proof.
  unfold create_approval_request. destruct (json_dumps _) as [ser|]; [|by left].
  destruct db_ok; [|by left]. simpl. case_bool_decide; [|by left].
  right. split; [done|]. split; [done|]. by exists ser.
Qed.

(** What the gate does to the table when nothing is served during its
    await: nothing, or one new pending row whose request has been sent to
    its manager and whose message id is recorded, or, when neither the
    message to the manager nor the answer to the requester could be sent,
    one new pending row without a message id. *)
Lemma process_quantity_input_requests now from_id mi gp gm uuid4 db_ok sent
    answered w :
  let r :=
    process_quantity_input now from_id mi gp gm uuid4 db_ok sent answered w in
  requests r.1 = requests w
  ∨ (requests w !! uuid4 = None
     ∧ ∃ row,
         requests r.1 = <[uuid4 := row]> (requests w)
         ∧ r_status row = "pending"
         ∧ r_user_id row = from_id
         ∧ notified (r_manager_id row) uuid4 r.2
         ∧ ((∃ message_id,
               sent = Some message_id
               ∧ r_manager_message_id row = Some message_id)
            ∨ (sent = None ∧ answered = false
               ∧ r_manager_message_id row = None
               ∧ Raised "TelegramAPIError" ∈ r.2))).
Proof.
  unfold process_quantity_input, process_quantity_input_begin,
    process_quantity_input_end, answer_then.
  destruct mi as [quantity|]; [|by left; destruct answered].
  destruct (Z.leb quantity 0); [by left; destruct answered|].
  destruct (dict_get (KStr "article") _) as [article|]; [|by left].
  destruct (dict_get (KStr "selected_shop") _) as [selected_shop|]; [|by left].
  destruct (gp article selected_shop) as [product|];
    [|by left; destruct answered].
  destruct (is_top0 (p_top product)); [|by left; destruct answered].
  destruct (gm (p_department product)) as [manager|];
    [|by left; destruct answered].
  match goal with
  | |- context [create_approval_request ?a ?b ?c ?d ?e ?f ?g ?h ?i ?j ?k ?l] =>
      destruct (create_approval_request_spec a b c d e f g h i j k l)
        as [[Hok Hreqs]|(Hok & Hfree & ser & Hser & Hreqs)];
      rewrite Hok, Hreqs; simpl
  end; [by left; destruct answered|].
  assert (Hsent : ∀ l,
            notified (m_id manager) uuid4
              (SendApprovalRequest (m_id manager) uuid4 from_id selected_shop
                 article (p_name product) quantity (p_supplier product)
                 (p_department product) :: l)).
  { intros l. repeat eexists. by left. }
  destruct sent as [message_id|], answered; simpl.
  - right. split; [done|]. eexists. split; [apply alter_insert_eq|]. simpl.
    split; [done|]. split; [done|]. split; [done|]. left. by exists message_id.
  - right. split; [done|]. eexists. split; [apply alter_insert_eq|]. simpl.
    split; [done|]. split; [done|]. split; [done|]. left. by exists message_id.
  - left. by apply delete_insert_id.
  - right. split; [done|]. eexists. split; [done|]. simpl.
    split; [done|]. split; [done|]. split; [done|]. right.
    split; [done|]. split; [done|]. split; [done|].
    right. right. by left.
Qed.

Lemma get_approval_request_by_id_Some rid reqs row data :
  get_approval_request_by_id rid reqs = Some (row, data) → reqs !! rid = Some row.
Proof.
  unfold get_approval_request_by_id. destruct (reqs !! rid); [|done].
  by intros [= -> _].
Qed.

(** What an approver's callback does to the table: nothing, or the approval
    of a pending request by its manager, of which the requester is told. *)
Lemma handle_manager_approval_requests now m act rid sent_ok edit_ok w :
  let r := handle_manager_approval now m act rid sent_ok edit_ok w in
  requests r.1 = requests w
  ∨ (act = approve
     ∧ ∃ row, requests w !! rid = Some row
        ∧ r_status row = "pending" ∧ r_manager_id row = m
        ∧ requests r.1
          = alter (set_request_status now "approved" None None) rid (requests w)
        ∧ SendApproved (r_user_id row) rid (r_article row) (r_product_name row)
            (r_shop row) ∈ r.2).
Proof.
  unfold handle_manager_approval.
  destruct (get_approval_request_by_id rid (requests w)) as [[row data]|] eqn:Hget;
    [|by left].
  apply get_approval_request_by_id_Some in Hget.
  destruct (Z.eqb_spec (r_manager_id row) m) as [Hm|]; simpl; [|by left].
  destruct (String.eqb_spec (r_status row) "pending") as [Hst|]; simpl; [|by left].
  destruct act; simpl.
  - rewrite Hget. rewrite bool_decide_eq_true_2 by eauto. simpl.
    right. split; [done|]. exists row. repeat split; try done. by left.
  - destruct edit_ok; by left.
Qed.

(** What a reason of refusal does to the table: nothing, or the refusal of
    a pending request by its manager, with the reason. *)
Lemma handle_manager_reject_comment_requests now m txt gm sent_ok w :
  let r := handle_manager_reject_comment now m txt gm sent_ok w in
  requests r.1 = requests w
  ∨ (∃ rid row, requests w !! rid = Some row
       ∧ r_status row = "pending" ∧ r_manager_id row = m
       ∧ strip txt ≠ ""
       ∧ requests r.1
         = alter (set_request_status now "rejected" None (Some (strip txt)))
             rid (requests w)).
Proof.
  unfold handle_manager_reject_comment.
  destruct (String.eqb_spec (strip txt) "") as [|Hne]; [by left|].
  destruct (dict_get _ _) as [v|]; [|by left].
  destruct (py_truthy v); simpl; [|by left].
  destruct (as_request_id v) as [rid|]; [|by left].
  destruct (get_approval_request_by_id rid (requests w)) as [[row data]|] eqn:Hget;
    [|by left].
  apply get_approval_request_by_id_Some in Hget.
  destruct (Z.eqb_spec (r_manager_id row) m) as [Hm|]; simpl; [|by left].
  destruct (String.eqb_spec (r_status row) "pending") as [Hst|]; simpl; [|by left].
  rewrite Hget. rewrite bool_decide_eq_true_2 by eauto. simpl.
  right. by exists rid, row.
Qed.

(** What the button to continue does to the table: nothing, or the removal
    of an approved request by its requester. *)
Lemma handle_continue_order_requests u rid w :
  let r := handle_continue_order u rid w in
  requests r.1 = requests w
  ∨ (∃ row, requests w !! rid = Some row
       ∧ r_status row = "approved" ∧ r_user_id row = u
       ∧ requests r.1 = delete rid (requests w)).
Proof.
  unfold handle_continue_order.
  destruct (get_approval_request_by_id rid (requests w)) as [[row data]|] eqn:Hget;
    [|by left].
  apply get_approval_request_by_id_Some in Hget.
  destruct (Z.eqb_spec (r_user_id row) u) as [Hu|]; simpl; [|by left].
  destruct (String.eqb_spec (r_status row) "approved") as [Hst|]; simpl; [|by left].
  right. exists row. by destruct data.
Qed.

Lemma final_confirmation_requests now now_iso db_ok u w :
  requests (final_confirmation now now_iso db_ok u w).1 = requests w.
Proof. unfold final_confirmation. by case_match. Qed.

Lemma step_requests_change inp w :
  requests_change (requests w) (requests (step inp w).1) (step inp w).2.
Proof.
  destruct inp as [now from_id mi gp gm uuid4 db_ok sent answered
                  |now m act rid sent_ok edit_ok
                  |now m txt gm sent_ok
                  |u rid
                  |now now_iso db_ok u
                  |tie now ledger
                  |u ctx]; simpl; try by apply rc_same.
  - case_decide; [|by apply rc_same].
    destruct (process_quantity_input_requests now from_id mi gp gm uuid4 db_ok
                sent answered w)
      as [Hsame|(Hfree & row & Hnew & Hst & _ & Hn
                 & [(mid & _ & Hmid)|(_ & _ & Hmid & Hraised)])].
    + by apply rc_same.
    + apply (rc_created _ _ _ uuid4 row); [done|done|done| |done].
      rewrite Hmid. eauto.
    + by apply (rc_orphaned _ _ _ uuid4 row).
  - destruct (handle_manager_approval_requests now m act rid sent_ok edit_ok w)
      as [Hsame|(_ & row & Hrow & Hst & _ & Hnew & _)].
    + by apply rc_same.
    + apply (rc_decided _ _ _ rid row now "approved" None); auto.
  - case_decide; [|by apply rc_same].
    destruct (handle_manager_reject_comment_requests now m txt gm sent_ok w)
      as [Hsame|(rid & row & Hrow & Hst & _ & _ & Hnew)].
    + by apply rc_same.
    + apply (rc_decided _ _ _ rid row now "rejected" (Some (strip txt))); auto.
  - destruct (handle_continue_order_requests u rid w)
      as [Hsame|(row & Hrow & Hst & _ & Hnew)].
    + by apply rc_same.
    + by apply (rc_resumed _ _ _ rid row).
  - case_decide; [|by apply rc_same].
    apply rc_same, final_confirmation_requests.
Qed.

Lemma trace_step inputs w k w1 w2 :
  trace inputs w !! k = Some w1 → trace inputs w !! S k = Some w2 →
  ∃ inp, w2 = (step inp w1).1.
Proof.
  revert w k. induction inputs as [|inp inputs IH]; intros w k H1 H2.
  - by destruct k.
  - destruct k as [|k]; simpl in *.
    + injection H1 as <-. destruct inputs; simpl in H2; injection H2 as <-; eauto.
    + eapply IH; eauto.
Qed.

(** What the guards of the handlers achieve.  As long as every handler
    runs to its end before the next update is served, from one world of a
    run to the next the status of a request that is still there is
    unchanged or goes from [pending] to [approved] or to [rejected], a
    request that is [approved] or [rejected] keeps its status, and a request
    that appears is [pending].  (What happens when a decision is served
    between the two parts of the gate is shown next.) *)
Lemma handler_status_transitions (inputs : list input) (w w1 w2 : World)
    (k : nat) (request_id : string) (row2 : ApprovalRequest) :
  trace inputs w !! k = Some w1 →
  trace inputs w !! S k = Some w2 →
  requests w2 !! request_id = Some row2 →
  match requests w1 !! request_id with
  | Some row1 =>
      status_transition (r_status row1) (r_status row2)
      ∧ (r_status row1 = "approved" → r_status row2 = "approved")
      ∧ (r_status row1 = "rejected" → r_status row2 = "rejected")
  | None => r_status row2 = "pending"
  end.
Proof.
  intros H1 H2 Hrow2. destruct (trace_step _ _ _ _ _ H1 H2) as [inp ->].
  assert (Hgoal : ∀ row1, requests w1 !! request_id = Some row1 →
                    status_transition (r_status row1) (r_status row2)).
  { intros row1 Hrow1.
    destruct (step_requests_change inp w1)
      as [H|rid row Hfree Hst Hn Hm H|rid row Hfree Hst Hm Hr H
         |rid row now st rc Hrow Hst Hdec H|rid row Hrow Hst H];
      rewrite H in Hrow2.
    - left. congruence.
    - rewrite lookup_insert_ne in Hrow2 by congruence. left. congruence.
    - rewrite lookup_insert_ne in Hrow2 by congruence. left. congruence.
    - destruct (decide (rid = request_id)) as [->|Hne].
      + rewrite lookup_alter_eq, Hrow in Hrow2. injection Hrow2 as <-.
        right. simpl. split; [congruence|done].
      + rewrite lookup_alter_ne in Hrow2 by done. left. congruence.
    - destruct (decide (rid = request_id)) as [->|Hne].
      + by rewrite lookup_delete_eq in Hrow2.
      + rewrite lookup_delete_ne in Hrow2 by done. left. congruence. }
  destruct (requests w1 !! request_id) as [row1|] eqn:Hrow1.
  - specialize (Hgoal row1 eq_refl). split; [done|].
    unfold status_transition in Hgoal.
    split; intros Hs; rewrite Hs in Hgoal;
      destruct Hgoal as [?|[? _]]; congruence.
  - destruct (step_requests_change inp w1)
      as [H|rid row Hfree Hst Hn Hm H|rid row Hfree Hst Hm Hr H
         |rid row now st rc Hrow Hst Hdec H|rid row Hrow Hst H];
      rewrite H in Hrow2.
    + congruence.
    + destruct (decide (rid = request_id)) as [->|Hne].
      * rewrite lookup_insert_eq in Hrow2. congruence.
      * rewrite lookup_insert_ne in Hrow2 by done. congruence.
    + destruct (decide (rid = request_id)) as [->|Hne].
      * rewrite lookup_insert_eq in Hrow2. congruence.
      * rewrite lookup_insert_ne in Hrow2 by done. congruence.
    + destruct (decide (rid = request_id)) as [->|Hne]; [congruence|].
      rewrite lookup_alter_ne in Hrow2 by done. congruence.
    + destruct (decide (rid = request_id)) as [->|Hne]; [congruence|].
      rewrite lookup_delete_ne in Hrow2 by done. congruence.
Qed.

(** The recording of the message id writes [pending] over whatever status
    the request has by the time the gate is resumed. *)
Lemma handle_recording_writes_pending (now : Z) (frame : gate_frame)
    (message_id : Z) (answered : bool) (w : World) (row : ApprovalRequest) :
  requests w !! g_request_id frame = Some row →
  requests (process_quantity_input_end now frame (Some message_id) answered w).1
    !! g_request_id frame
  = Some (set_request_status now "pending" (Some message_id) None row).
Proof.
  intros Hrow.
  unfold process_quantity_input_end, answer_then, update_approval_request_status.
  destruct answered; simpl; by rewrite lookup_alter_eq, Hrow.
Qed.

(** C1 (status transitions), as stated, fails: the status of a decided
    request goes back to [pending].  User 7 gives the quantity of an article
    of TOP 0: the gate stores the request [r2] and calls [bot.send_message]
    for manager 5.  While the gate awaits the return of that call, the
    manager, who has the message, presses the button:
    [handle_manager_approval] sets the request to [approved] and the
    requester is sent the button to continue.  The gate is then resumed and
    records the id of the message with
    [update_approval_request_status(request_id, 'pending', message_id)],
    which has no guard on the status: the request is [pending] again, and
    the requester who presses the button is told that the request is not
    approved yet. *)
Theorem status_reset_by_handle_recording :
  let b :=
    process_quantity_input_begin 20 7 (Some 3) example_product
      example_directory "r2" true true ordering_world in
  let w1 := b.1.1 in
  let decision := step (ManagerCallback 30 5 approve "r2" true true) w1 in
  let w2 := decision.1 in
  ∃ frame,
    b.2 = Some frame
    ∧ g_request_id frame = "r2"
    ∧ let w3 := (process_quantity_input_end 40 frame (Some 900) true w2).1 in
      (r_status <$> requests w1 !! "r2") = Some "pending"
      ∧ (r_status <$> requests w2 !! "r2") = Some "approved"
      ∧ SendApproved 7 "r2" (PyStr "12345") "Drill" (PyStr "7") ∈ decision.2
      ∧ (r_status <$> requests w3 !! "r2") = Some "pending"
      ∧ (handle_continue_order 7 "r2" w3).2 = [Answer 7 NotYetApproved].
Proof.
  eexists. split; [reflexivity|]. split; [reflexivity|].
  split; [by vm_compute|]. split; [by vm_compute|].
  split; [vm_compute; left|]. split; by vm_compute.
Qed.



Lemma notified_app_l m rid effs effs' :
  notified m rid effs → notified m rid (effs ++ effs').
Proof.
  intros (u & sh & a & pn & qt & ps & dep & H).
  exists u, sh, a, pn, qt, ps, dep. apply elem_of_app. by left.
Qed.

Lemma notified_app_r m rid effs effs' :
  notified m rid effs' → notified m rid (effs ++ effs').
Proof.
  intros (u & sh & a & pn & qt & ps & dep & H).
  exists u, sh, a, pn, qt, ps, dep. apply elem_of_app. by right.
Qed.

Lemma step_all_notified inp w effs :
  all_notified (requests w) effs →
  Raised "TelegramAPIError" ∉ (step inp w).2 →
  all_notified (requests (step inp w).1) (effs ++ (step inp w).2).
Proof.
  intros Hinv Hanswered rid row Hrow.
  destruct (step_requests_change inp w)
    as [H|rid' row' Hfree Hst Hn Hm H|rid' row' Hfree Hst Hm Hr H
       |rid' row' now st rc Hrow' Hst' _ H|rid' row' Hrow' Hst' H];
    rewrite H in Hrow.
  - destruct (Hinv rid row Hrow) as [Hn Hm]. split; [|done].
    by apply notified_app_l.
  - destruct (decide (rid' = rid)) as [->|Hne].
    + rewrite lookup_insert_eq in Hrow. injection Hrow as <-.
      split; [|done]. by apply notified_app_r.
    + rewrite lookup_insert_ne in Hrow by done.
      destruct (Hinv rid row Hrow) as [Hn' Hm']. split; [|done].
      by apply notified_app_l.
  - done.
  - destruct (decide (rid' = rid)) as [->|Hne].
    + rewrite lookup_alter_eq, Hrow' in Hrow. injection Hrow as <-. simpl.
      destruct (Hinv rid row' Hrow') as [Hn Hm]. split; [|done].
      by apply notified_app_l.
    + rewrite lookup_alter_ne in Hrow by done.
      destruct (Hinv rid row Hrow) as [Hn Hm]. split; [|done].
      by apply notified_app_l.
  - destruct (decide (rid' = rid)) as [->|Hne].
    + by rewrite lookup_delete_eq in Hrow.
    + rewrite lookup_delete_ne in Hrow by done.
      destruct (Hinv rid row Hrow) as [Hn Hm]. split; [|done].
      by apply notified_app_l.
Qed.

Lemma run_all_notified inputs w effs :
  all_notified (requests w) effs →
  Raised "TelegramAPIError" ∉ (run inputs w).2 →
  all_notified (requests (run inputs w).1) (effs ++ (run inputs w).2).
Proof.
  revert w effs.
  induction inputs as [|inp inputs IH]; intros w effs Hinv Hanswered; simpl.
  - by rewrite app_nil_r.
  - simpl in Hanswered. rewrite app_assoc. apply IH.
    + apply step_all_notified; [done|].
      intros Hin. apply Hanswered, elem_of_app. by left.
    + intros Hin. apply Hanswered, elem_of_app. by right.
Qed.

(** The rollback of the gate, as far as it goes.  As long as no answer of
    the gate to a requester raises, and every handler runs to its end
    before the next update is served: starting with an empty table of
    requests, every request of the table has been sent to its manager and
    carries the id of that message; and when the gate has stored a request,
    the message to the manager cannot be sent and the requester is told so,
    the table is as before the gate, and the session is cleared. *)
Lemma gate_rollback_when_answered (inputs : list input) (w : World) :
  requests w = ∅ →
  let r := run inputs w in
  Raised "TelegramAPIError" ∉ r.2 →
  all_notified (requests r.1) r.2
  ∧ ∀ now from_id message_int get_product get_manager uuid4 db_ok,
      let g :=
        process_quantity_input now from_id message_int get_product get_manager
          uuid4 db_ok None true r.1 in
      requests g.1 = requests r.1
      ∧ ((∃ manager_id, notified manager_id uuid4 g.2) →
           requests g.1 !! uuid4 = None
           ∧ Answer from_id ManagerSendFailed ∈ g.2
           ∧ fsm g.1 !! from_id = Some empty_ctx).
Proof.
  intros Hempty r Hanswered. split.
  - apply (run_all_notified inputs w []); [|done]. intros rid row.
    by rewrite Hempty, lookup_empty.
  - intros now from_id mi gp gm uuid4 db_ok.
    set (w1 := r.1). clearbody w1. clear r Hanswered. simpl.
    unfold process_quantity_input, process_quantity_input_begin,
      process_quantity_input_end, answer_then.
    assert (Hno : ∀ m l, notified m uuid4 l →
                   Forall (λ ef, match ef with
                                 | SendApprovalRequest _ _ _ _ _ _ _ _ _ => False
                                 | _ => True
                                 end) l → False).
    { intros m l (u & sh & a & pn & qt & ps & dep & Hin) Hall.
      by eapply Forall_forall in Hall; [|exact Hin]. }
    destruct mi as [quantity|];
      [|split; [done|]; intros [m Hm]; exfalso;
       apply (Hno _ _ Hm); by repeat constructor].
    destruct (Z.leb quantity 0);
      [split; [done|]; intros [m Hm]; exfalso;
       apply (Hno _ _ Hm); by repeat constructor|].
    destruct (dict_get (KStr "article") _) as [article|];
      [|split; [done|]; intros [m Hm]; exfalso;
       apply (Hno _ _ Hm); by repeat constructor].
    destruct (dict_get (KStr "selected_shop") _) as [selected_shop|];
      [|split; [done|]; intros [m Hm]; exfalso;
       apply (Hno _ _ Hm); by repeat constructor].
    destruct (gp article selected_shop) as [product|];
      [|split; [done|]; intros [m Hm]; exfalso;
       apply (Hno _ _ Hm); by repeat constructor].
    destruct (is_top0 (p_top product));
      [|split; [done|]; intros [m Hm]; exfalso;
       apply (Hno _ _ Hm); by repeat constructor].
    destruct (gm (p_department product)) as [manager|];
      [|split; [done|]; intros [m Hm]; exfalso;
       apply (Hno _ _ Hm); by repeat constructor].
    match goal with
    | |- context [create_approval_request ?a ?b ?c ?d ?e ?f ?g ?h ?i ?j ?k ?l] =>
        destruct (create_approval_request_spec a b c d e f g h i j k l)
          as [[Hok Hreqs]|(Hok & Hfree & ser & Hser & Hreqs)];
        rewrite Hok, Hreqs; simpl
    end.
    + split; [done|]. intros [m Hm]. exfalso.
      apply (Hno _ _ Hm). by repeat constructor.
    + rewrite delete_insert_id by done. split; [done|]. intros _.
      split; [done|]. split; [by right; left|].
      unfold state_clear. by rewrite lookup_insert_eq.
Qed.

(** The gate touches no request but the one it creates. *)
Lemma process_quantity_input_other now from_id mi gp gm uuid4 db_ok sent
    answered w request_id :
  request_id ≠ uuid4 →
  requests
    (process_quantity_input now from_id mi gp gm uuid4 db_ok sent answered w).1
    !! request_id
  = requests w !! request_id.
Proof.
  intros Hne.
  destruct (process_quantity_input_requests now from_id mi gp gm uuid4 db_ok
              sent answered w) as [->|(_ & row & -> & _)]; [done|].
  by rewrite lookup_insert_ne.
Qed.

(** C8 (rollback of the gate), as stated, fails: the rollback can leave an
    orphan.  User 7 gives the quantity of an article of TOP 0; the gate
    stores the request [r2] for manager 5; the message to the manager cannot
    be sent, and the answer that tells the requester so cannot be sent
    either (the [except] block awaits [message.answer] before it calls
    [delete_approval_request]).  The exception leaves the handler: the
    request stays in the table, pending, with no message id, although no
    message reached the manager; the requester is not told, and the session
    is not cleared.  The request also stays when the update is then served
    once more, whatever the calls do that time. *)
Theorem gate_rollback_orphan :
  let r :=
    step (QuantityMessage 20 7 (Some 3) example_product example_directory "r2"
            true None false) ordering_world in
  requests ordering_world !! "r2" = None
  ∧ (∃ row, requests r.1 !! "r2" = Some row
       ∧ r_status row = "pending"
       ∧ r_manager_message_id row = None
       ∧ r_user_id row = 7 ∧ r_manager_id row = 5)
  ∧ r.2 = [SendApprovalRequest 5 "r2" 7 (PyStr "7") (PyStr "12345") "Drill" 3
             "ACME" "12";
           Answer 7 ManagerSendFailed;
           Raised "TelegramAPIError"]
  ∧ state_get_state 7 (fsm r.1) = Some quantity_input
  ∧ ∀ now message_int get_product get_manager uuid4 db_ok sent answered,
      uuid4 ≠ "r2" →
      requests
        (step (QuantityMessage now 7 message_int get_product get_manager uuid4
                 db_ok sent answered) r.1).1 !! "r2"
      = requests r.1 !! "r2".
Proof.
  split; [by vm_compute|]. split; [|split; [by vm_compute|split]].
  - eexists. split; [by vm_compute|]. by vm_compute.
  - by vm_compute.
  - intros now mi gp gm uuid4 db_ok sent answered Hne. simpl.
    case_decide; [|done]. by apply process_quantity_input_other.
Qed.

(** ** The guard of a decision *)

(** C4, as stated, fails: manager 5 has started to refuse request [r1],
    which has been approved in the meantime; the reason then sent meets the
    guard (the request is not pending), and the handler clears the state of
    the manager, so the world is not the one before. *)
Lemma reject_comment_guard_mutates_session :
  ¬ (∀ now manager_id text get_manager sent_ok w request_id failure,
       dict_get (KStr "current_reject_request_id")
         (state_get_data manager_id (fsm w)) = Some (PyStr request_id) →
       strip text ≠ "" →
       decision_guard (requests w) request_id manager_id = Some failure →
       (handle_manager_reject_comment now manager_id text get_manager
          sent_ok w).1 = w).
Proof.
  intros H.
  specialize (H 30 5 "too late" (λ _, None) true (example_world "approved")
                "r1" (NotPending "approved")).
  assert (Hfsm : fsm (handle_manager_reject_comment 30 5 "too late" (λ _, None)
                        true (example_world "approved")).1 !! 5
                 = fsm (example_world "approved") !! 5).
  { rewrite H; [done|by vm_compute|by vm_compute|by vm_compute]. }
  vm_compute in Hfsm. discriminate Hfsm.
Qed.

(** C4, amended (guard of a decision): when the request is absent, or is
    assigned to another manager, or is not pending, [handle_manager_approval]
    (approve and start of a refusal) answers with the condition and leaves
    the whole world as it is, and [handle_manager_reject_comment] answers
    with the condition, leaves the requests and the queue as they are and
    changes the sessions only by clearing the state of the manager who
    wrote. *)
Theorem decision_guard_no_request_mutation (now manager_id : Z)
    (request_id : string) (failure : guard_failure) (w : World) :
  decision_guard (requests w) request_id manager_id = Some failure →
  (∀ act sent_ok edit_ok,
     let r :=
       handle_manager_approval now manager_id act request_id sent_ok edit_ok w in
     r.1 = w ∧ Answer manager_id (callback_report failure) ∈ r.2)
  ∧ (∀ text get_manager sent_ok,
       dict_get (KStr "current_reject_request_id")
         (state_get_data manager_id (fsm w)) = Some (PyStr request_id) →
       request_id ≠ "" →
       strip text ≠ "" →
       let r :=
         handle_manager_reject_comment now manager_id text get_manager
           sent_ok w in
       requests r.1 = requests w
       ∧ queue r.1 = queue w
       ∧ fsm r.1 = <[manager_id := empty_ctx]> (fsm w)
       ∧ (∀ user, user ≠ manager_id → fsm r.1 !! user = fsm w !! user)
       ∧ r.2 = [Answer manager_id (comment_report failure)]).
Proof.
  unfold decision_guard. intros Hguard. split.
  - intros act sent_ok edit_ok. simpl.
    unfold handle_manager_approval, get_approval_request_by_id.
    destruct (requests w !! request_id) as [row|].
    + destruct (negb (Z.eqb (r_manager_id row) manager_id)).
      { injection Hguard as <-. split; [done|]. by left. }
      destruct (negb (String.eqb (r_status row) "pending")); [|done].
      injection Hguard as <-. split; [done|]. by left.
    + injection Hguard as <-. split; [done|]. by left.
  - intros text get_manager sent_ok Hdata Hrid Htext. simpl.
    unfold handle_manager_reject_comment, get_approval_request_by_id.
    destruct (String.eqb_spec (strip text) "") as [|_]; [done|].
    rewrite Hdata. simpl.
    destruct (String.eqb_spec request_id "") as [|_]; [done|]. simpl.
    assert (Hother : ∀ user, user ≠ manager_id →
              state_clear manager_id (fsm w) !! user = fsm w !! user).
    { intros user Hne. unfold state_clear. by rewrite lookup_insert_ne. }
    destruct (requests w !! request_id) as [row|].
    + destruct (negb (Z.eqb (r_manager_id row) manager_id)).
      { injection Hguard as <-. done. }
      destruct (negb (String.eqb (r_status row) "pending")); [|done].
      injection Hguard as <-. done.
    + injection Hguard as <-. done.
Qed.

(** ** The theorems at concrete inputs *)


Lemma update_order_status_frame_witness :
  queue_example !! 1
  = Some (mkQueueEntry 7
            (Document (JObj [("article", JStr "12345"); ("selected_shop", JStr "7")]))
            "pending" 0 None None 100 None)
  ∧ ∃ e', (update_order_status 200 1 "failed" (Some "boom") queue_example).1 !! 1
          = Some e'
          ∧ q_status e' = "failed"
          ∧ q_attempt_count e' = 1
          ∧ q_error_message e' = Some "boom".
Proof.
  split; [by vm_compute|].
  destruct (update_order_status_frame 200 1 "failed" (Some "boom") queue_example
              (mkQueueEntry 7
                 (Document
                    (JObj [("article", JStr "12345"); ("selected_shop", JStr "7")]))
                 "pending" 0 None None 100 None))
    as (_ & _ & e' & He' & Hst & _ & _ & _ & _ & _ & Hfailed & _);
    [by vm_compute|].
  destruct (Hfailed eq_refl) as (Hcount & Herr & _).
  exists e'. split; [exact He'|]. split; [exact Hst|]. split; [exact Hcount|].
  exact Herr.
Defined.

Lemma retry_exhaustion_witness :
  (1, last_chance_entry) ∈ select_pending id (queue last_chance_world) 5
  ∧ q_attempt_count last_chance_entry = MAX_ATTEMPTS - 1
  ∧ effects_about 1
      (step (WorkerCycle id 200 (λ _, Some "boom")) last_chance_world).2
    = [LedgerWrite 1;
       SendQueueAlert 122086799 1 7 (PyStr "12345") (PyStr "7") "boom";
       SendQueueAlert 5183727015 1 7 (PyStr "12345") (PyStr "7") "boom"]
  ∧ ∀ inputs,
      effects_about 1
        (run inputs
           (step (WorkerCycle id 200 (λ _, Some "boom")) last_chance_world).1).2
      = [].
Proof.
  assert (Hsel : (1, last_chance_entry)
                 ∈ select_pending id (queue last_chance_world) 5)
    by (vm_compute; left).
  destruct (retry_exhaustion id 200 (λ _, Some "boom") last_chance_world 1
              last_chance_entry
              [(KStr "article", PyStr "12345"); (KStr "selected_shop", PyStr "7")]
              "boom" Hsel eq_refl eq_refl eq_refl) as (_ & Heff & Hafter).
  split; [exact Hsel|]. split; [reflexivity|]. split; [exact Heff|].
  intros inputs. exact (proj2 (Hafter inputs)).
Defined.

Lemma malformed_payload_starved_witness :
  queue starved_world !! 1 = Some (broken_entry 1)
  ∧ json_loads (q_order_data (broken_entry 1)) = None
  ∧ (1, broken_entry 1) ∈ select_pending id (queue starved_world) 5
  ∧ get_pending_orders id (queue starved_world) 5 = []
  ∧ (∀ inputs,
       queue (run inputs starved_world).1 !! 1 = Some (broken_entry 1)
       ∧ effects_about 1 (run inputs starved_world).2 = [])
  ∧ process_order_queue
      [(id, 200, λ _, None); (id, 230, λ _, None); (id, 260, λ _, None)]
      (queue starved_world)
    = (queue starved_world, []).
Proof.
  destruct (malformed_payload_starved starved_world 1 (broken_entry 1)
              eq_refl eq_refl) as (_ & _ & _ & Hrun & Hstuck).
  split; [reflexivity|]. split; [reflexivity|].
  split; [vm_compute; left|].
  split; [by vm_compute|]. split; [exact Hrun|].
  apply Hstuck. repeat (apply List.Forall_cons; [vm_compute; repeat constructor|]).
  apply List.Forall_nil.
Defined.

Lemma enqueue_never_silently_drops_witness :
  Forall (λ field,
            dict_mem (KStr field)
              (state_get_data 7
                 (state_update_data 7 [(KStr "last_activity", PyStr "2024-01-01")]
                    (fsm confirming_world))) = true)
    required_fields
  ∧ queue (final_confirmation 100 "2024-01-01" false 7 confirming_world).1
    = queue confirming_world
  ∧ (final_confirmation 100 "2024-01-01" false 7 confirming_world).2
    = [Answer 7 OrderSent; LogCritical 7;
       SendEnqueueAlert 122086799 7 (PyStr "12345") (PyStr "7");
       SendEnqueueAlert 5183727015 7 (PyStr "12345") (PyStr "7")].
Proof.
  assert (Hreq : Forall (λ field,
            dict_mem (KStr field)
              (state_get_data 7
                 (state_update_data 7 [(KStr "last_activity", PyStr "2024-01-01")]
                    (fsm confirming_world))) = true)
    required_fields) by (vm_compute; repeat constructor).
  split; [exact Hreq|].
  destruct (enqueue_never_silently_drops 100 "2024-01-01" false 7 confirming_world
              Hreq) as [Hq [(Hok & _)|(_ & Hsame & Heff)]].
  - vm_compute in Hok. discriminate Hok.
  - split; [by rewrite Hq, Hsame|exact Heff].
Defined.



Lemma gate_rollback_orphan_witness :
  let r :=
    step (QuantityMessage 20 7 (Some 3) example_product example_directory "r2"
            true None false) ordering_world in
  "r3" ≠ "r2"
  ∧ requests
      (step (QuantityMessage 50 7 (Some 3) example_product example_directory
               "r3" true (Some 901) true) r.1).1 !! "r2"
    = requests r.1 !! "r2".
Proof.
  intros r. assert (Hne : "r3" ≠ "r2") by discriminate.
  split; [exact Hne|].
  destruct gate_rollback_orphan as (_ & _ & _ & _ & Hagain).
  exact (Hagain 50 (Some 3) example_product example_directory "r3" true
           (Some 901) true Hne).
Defined.

Lemma decision_guard_no_request_mutation_witness :
  let w := example_world "approved" in
  decision_guard (requests w) "r1" 5 = Some (NotPending "approved")
  ∧ (handle_manager_approval 30 5 approve "r1" true true w).1 = w
  ∧ Answer 5 (AlreadyDecided "approved")
    ∈ (handle_manager_approval 30 5 approve "r1" true true w).2
  ∧ requests (handle_manager_reject_comment 30 5 "too late" (λ _, None) true w).1
    = requests w
  ∧ fsm (handle_manager_reject_comment 30 5 "too late" (λ _, None) true w).1
    = <[5 := empty_ctx]> (fsm w).
Proof.
  intros w.
  destruct (decision_guard_no_request_mutation 30 5 "r1" (NotPending "approved") w
              eq_refl) as [Hcallback Hcomment].
  split; [reflexivity|].
  destruct (Hcallback approve true true) as [Hsame Hanswer].
  split; [exact Hsame|]. split; [exact Hanswer|].
  destruct (Hcomment "too late" (λ _, None) true) as (Hreqs & _ & Hfsm & _);
    [reflexivity|done|done|].
  split; [exact Hreqs|exact Hfsm].
Defined.
